(** * The casting-agency API (app.py, models.py): a shallow embedding

    The Flask application of [app.py] and the SQLAlchemy models of
    [models.py] are embedded as functions over an explicit request and an
    explicit database state.  Python objects that travel through the handlers
    (the parsed JSON body, record fields, response dictionaries) are values of
    one dynamically typed datatype, as in the source. *)

From Stdlib Require Import String Ascii ZArith Bool List Lia DecimalString.
Import ListNotations.

Set Warnings "-register-all".

Local Open Scope string_scope.
Local Open Scope list_scope.
Local Open Scope Z_scope.

(** ** Python values and the built-ins the handlers use *)

Module Py.

(** What [request.get_json()] can return, what [jsonify] accepts and what the
    handlers store in record attributes.  [JNull] is Python's [None]; a dict
    is kept as its items in insertion order (keys are unique in a dict);
    [JDate] is a [datetime.date], which [models.py] stores in a [Date]
    column and the database gives back from one. *)
Inductive value : Type :=
| JNull
| JBool (b : bool)
| JNum (n : Z)
| JStr (s : string)
| JList (l : list value)
| JObj (o : list (string * value))
| JDate (year month day : Z).

(** Truth value testing, as used by [if not x]. *)
Definition truthy (v : value) : bool :=
  match v with
  | JNull => false
  | JBool b => b
  | JNum n => negb (n =? 0)%Z
  | JStr s => negb (s =? "")%string
  | JList l => match l with [] => false | _ => true end
  | JObj o => match o with [] => false | _ => true end
  | JDate _ _ _ => true
  end.

(** [a == b].  [True] and [False] compare as 1 and 0; lists compare element
    by element; two dicts are equal when they have as many items and every
    item of the first has its key in the second with an equal value. *)
Fixpoint py_eq (a b : value) {struct a} : bool :=
  match a, b with
  | JNull, JNull => true
  | JBool x, JBool y => Bool.eqb x y
  | JBool x, JNum m => ((if x then 1 else 0) =? m)%Z
  | JNum n, JBool y => (n =? (if y then 1 else 0))%Z
  | JNum n, JNum m => (n =? m)%Z
  | JStr s, JStr t => (s =? t)%string
  | JList l, JList l' =>
      (fix eq_items (l l' : list value) {struct l} : bool :=
         match l, l' with
         | [], [] => true
         | x :: r, y :: r' => py_eq x y && eq_items r r'
         | _, _ => false
         end) l l'
  | JObj o, JObj o' =>
      (length o =? length o')%nat
      && forallb (fun kv =>
           existsb (fun kv' => (fst kv' =? fst kv)%string
                               && py_eq (snd kv) (snd kv')) o') o
  | JDate y m d, JDate y' m' d' => (y =? y')%Z && (m =? m')%Z && (d =? d')%Z
  | _, _ => false
  end.

(** [d[key]] on the items of a dict; [None] stands for [KeyError]. *)
Fixpoint dict_lookup (o : list (string * value)) (key : string) : option value :=
  match o with
  | [] => None
  | (k, v) :: rest => if (k =? key)%string then Some v else dict_lookup rest key
  end.

(** [d.get(key, default)]. *)
Definition dict_get (o : list (string * value)) (key : string) (default : value) : value :=
  match dict_lookup o key with
  | Some v => v
  | None => default
  end.

(** Index normalisation of a slice bound against a sequence of length [n]
    (step 1): a negative bound counts from the end, and every bound is
    clamped into [0, n]. *)
Definition slice_index (n i : Z) : Z :=
  if i <? 0 then Z.max 0 (i + n) else Z.min i n.

(** [l[start:stop]]. Slicing never raises. *)
Definition py_slice {A : Type} (l : list A) (start stop : Z) : list A :=
  let n := Z.of_nat (length l) in
  let lo := slice_index n start in
  let hi := slice_index n stop in
  firstn (Z.to_nat (hi - lo)) (skipn (Z.to_nat lo) l).

(** [len(l)]. *)
Definition len {A : Type} (l : list A) : Z := Z.of_nat (length l).

End Py.

Import Py.

(** The mathematical reading of the slice notation [C[lo : hi]] used by the
    specification of the pagination helper: the elements of [C] whose
    (0-based) index [i] satisfies [lo <= i < hi], in order.  [i0] is the index
    of the head of the list. *)
Fixpoint slice_from {A : Type} (i0 lo hi : Z) (C : list A) : list A :=
  match C with
  | [] => []
  | x :: rest =>
      if (lo <=? i0) && (i0 <? hi)
      then x :: slice_from (i0 + 1) lo hi rest
      else slice_from (i0 + 1) lo hi rest
  end.

Definition spec_slice {A : Type} (C : list A) (lo hi : Z) : list A :=
  slice_from 0 lo hi C.

(** ** The authorization failures (auth.py's [AuthError]) *)

Module AuthTypes.

(** Modelled from the spec: the failure exits of the verification pipeline of
    the missing [auth.py], as section 4.1 names them. *)
Inductive AuthFailure : Type :=
| AuthHeaderMissing
| AuthHeaderMalformed
| TokenExpired
| TokenInvalidClaims
| TokenInvalidSignature
| TokenParsingError
| PermissionsClaimMissing
| PermissionNotFound.

(** [AuthError(error, status_code)]: [app.py] reads [status_code] and
    [error['description']] from it. *)
Record AuthError : Type := mkAuthError {
  failure : AuthFailure;
  description : string;
  status_code : Z
}.

(** Modelled from the spec: the decoded token payload of the missing
    [auth.py], with the claim section 4.1 reads; [permissions] is [None] when
    the claim is absent. *)
Record Payload : Type := mkPayload {
  sub : string;
  permissions : option (list string)
}.

End AuthTypes.

Import AuthTypes.

(** ** What the sources import but do not define

    [config.py], [auth.py]'s cryptography, Python's [int] and the database
    engine behind SQLAlchemy - its coercion of a text parameter, what each
    column type does with a value bound to it, where its unordered scan shows
    a row - are taken as parameters. *)
Class Platform : Type := {
  (** [pagination['example']] of [config.py]. *)
  ROWS_PER_PAGE : Z;
  (** Python's [int(s)] on a query-string value; [None] is [ValueError]. *)
  py_int : string -> option Z;
  (** The database's coercion of a text parameter compared with an
      [Integer] column; [None] is the engine's data error. *)
  sql_int : string -> option Z;
  (** A value other than [None] bound to a [String], an [Integer] or a
      [Date] column in an INSERT or UPDATE: the value the column then holds
      and gives back (as it was bound, or converted to the column's type), or
      [None] when the driver or the engine refuses it and the commit
      raises. *)
  store_string : value -> option value;
  store_integer : value -> option value;
  store_date : value -> option value;
  (** A query without ORDER BY returns the rows in an order of the engine's
      choosing: the position at which a row just written shows, counted
      among the other rows of its table (both as [format] renders them). *)
  scan_slot : list value -> value -> nat;
  (** Signature, expiry, issuer and audience verification of a bearer token
      by the identity provider's published key. *)
  verify_decode_jwt : string -> AuthError + Payload;
  (** The wording of the authorization messages the specification does not
      quote. *)
  auth_message : AuthFailure -> string
}.

(** ** models.py *)

Module Models.

(** [class Person(db.Model)].  [id] is [None] until the row is inserted. *)
Record Person : Type := mkPerson {
  person_id : option Z;
  person_name : value;
  person_gender : value;
  person_age : value
}.

(** [class Game(db.Model)]. *)
Record Game : Type := mkGame {
  game_id : option Z;
  game_title : value;
  game_release_date : value
}.

(** The tables [persons] and [games], each as the list of its rows in the
    order a query without ORDER BY returns them, and each with the sequence
    behind its auto-assigned primary key (the last value handed out).  The
    association table [Performance] is not touched by any handler and is
    left out. *)
Record DB : Type := mkDB {
  persons : list Person;
  persons_id_seq : Z;
  games : list Game;
  games_id_seq : Z
}.

(** Objects with a [format()] method. *)
Class Formattable (A : Type) : Type := format : A -> value.

Definition id_value (i : option Z) : value :=
  match i with
  | Some n => JNum n
  | None => JNull
  end.

(** [Person.format]. *)
#[export] Instance Person_format : Formattable Person := fun self =>
  JObj [("id", id_value (person_id self));
        ("name", person_name self);
        ("gender", person_gender self);
        ("age", person_age self)].

(** [Game.format]. *)
#[export] Instance Game_format : Formattable Game := fun self =>
  JObj [("id", id_value (game_id self));
        ("title", game_title self);
        ("release_date", game_release_date self)].

(** [Person.__init__(self, name, gender, age)]. *)
Definition Person_init (name gender age : value) : Person :=
  {| person_id := None; person_name := name;
     person_gender := gender; person_age := age |}.

(** [Game.__init__(self, title, release_date)]. *)
Definition Game_init (title release_date : value) : Game :=
  {| game_id := None; game_title := title;
     game_release_date := release_date |}.

Definition has_id (n : Z) (i : option Z) : bool :=
  match i with
  | Some m => (m =? n)%Z
  | None => false
  end.

Definition same_id (i j : option Z) : bool :=
  match i with
  | Some n => has_id n j
  | None => false
  end.

(** A parameter bound to a column: [None] is NULL whatever the type of the
    column, every other value is the engine's to store or to refuse. *)
Definition bind_param (store : value -> option value) (v : value) : option value :=
  match v with
  | JNull => Some JNull
  | _ => store v
  end.

(** A column in the UPDATE of an attached object.  The session keeps the
    value each attribute was loaded with; at the flush an attribute whose
    assigned value compares equal ([==]) to the loaded one is not written
    and the column keeps what it holds, the others are bound as
    parameters. *)
Definition column_after (store : value -> option value) (assigned loaded : value)
  : option value :=
  if py_eq assigned loaded then Some loaded else bind_param store assigned.

(** [x] at position [k] of [l] (at the end when [l] is shorter). *)
Definition place {A : Type} (k : nat) (x : A) (l : list A) : list A :=
  (firstn k l ++ x :: skipn k l)%list.

(** The table after [row] was written: the rows under its key are replaced
    by it, and it shows where the engine's scan puts it among the others. *)
Definition rewrite_row `{Platform} {A : Type} `{Formattable A}
  (key : A -> option Z) (row : A) (rows : list A) : list A :=
  let others := filter (fun r => negb (same_id (key row) (key r))) rows in
  place (scan_slot (map format others) (format row)) row others.

(** [insert]: [session.add(self); session.commit()].  The three attributes
    are bound to their columns; when the engine takes them the row receives
    the next value of the sequence, and the returned object is [self] as the
    session reloads it after the commit: with its [id], and with what the
    columns hold.  [None] is a commit that raises: nothing is stored. *)
Definition Person_insert `{Platform} (self : Person) (db : DB) : option (Person * DB) :=
  match bind_param store_string (person_name self),
        bind_param store_string (person_gender self),
        bind_param store_integer (person_age self) with
  | Some name, Some gender, Some age =>
      let n := persons_id_seq db + 1 in
      let row := {| person_id := Some n; person_name := name;
                    person_gender := gender; person_age := age |} in
      Some (row,
            {| persons := place (scan_slot (map format (persons db)) (format row))
                                row (persons db);
               persons_id_seq := n;
               games := games db; games_id_seq := games_id_seq db |})
  | _, _, _ => None
  end.

Definition Game_insert `{Platform} (self : Game) (db : DB) : option (Game * DB) :=
  match bind_param store_string (game_title self),
        bind_param store_date (game_release_date self) with
  | Some title, Some release_date =>
      let n := games_id_seq db + 1 in
      let row := {| game_id := Some n; game_title := title;
                    game_release_date := release_date |} in
      Some (row,
            {| persons := persons db; persons_id_seq := persons_id_seq db;
               games := place (scan_slot (map format (games db)) (format row))
                              row (games db);
               games_id_seq := n |})
  | _, _ => None
  end.

(** Some attribute of the object was assigned a value that differs from the
    loaded one: the flush has an UPDATE to send. *)
Definition Person_dirty (loaded self : Person) : bool :=
  negb (py_eq (person_name self) (person_name loaded)
        && py_eq (person_gender self) (person_gender loaded)
        && py_eq (person_age self) (person_age loaded)).

Definition Game_dirty (loaded self : Game) : bool :=
  negb (py_eq (game_title self) (game_title loaded)
        && py_eq (game_release_date self) (game_release_date loaded)).

(** [update]: [session.commit()] of an attached object whose attributes
    were assigned.  [loaded] is the object as the query loaded it (the row
    it was loaded from), [self] the object with the assigned attributes.
    The UPDATE writes the attributes that changed, if there is any; the
    returned object is [self] as the session reloads it after the commit.
    [None] is a commit that raises: nothing is stored. *)
Definition Person_update `{Platform} (loaded self : Person) (db : DB)
  : option (Person * DB) :=
  match column_after store_string (person_name self) (person_name loaded),
        column_after store_string (person_gender self) (person_gender loaded),
        column_after store_integer (person_age self) (person_age loaded) with
  | Some name, Some gender, Some age =>
      let row := {| person_id := person_id loaded; person_name := name;
                    person_gender := gender; person_age := age |} in
      if Person_dirty loaded self
      then Some (row,
                 {| persons := rewrite_row person_id row (persons db);
                    persons_id_seq := persons_id_seq db;
                    games := games db; games_id_seq := games_id_seq db |})
      else Some (row, db)
  | _, _, _ => None
  end.

Definition Game_update `{Platform} (loaded self : Game) (db : DB)
  : option (Game * DB) :=
  match column_after store_string (game_title self) (game_title loaded),
        column_after store_date (game_release_date self) (game_release_date loaded) with
  | Some title, Some release_date =>
      let row := {| game_id := game_id loaded; game_title := title;
                    game_release_date := release_date |} in
      if Game_dirty loaded self
      then Some (row,
                 {| persons := persons db; persons_id_seq := persons_id_seq db;
                    games := rewrite_row game_id row (games db);
                    games_id_seq := games_id_seq db |})
      else Some (row, db)
  | _, _ => None
  end.

(** [delete]: [session.delete(self); session.commit()]. *)
Definition Person_delete (self : Person) (db : DB) : DB :=
  {| persons := filter (fun r => negb (same_id (person_id self) (person_id r)))
                       (persons db);
     persons_id_seq := persons_id_seq db;
     games := games db; games_id_seq := games_id_seq db |}.

Definition Game_delete (self : Game) (db : DB) : DB :=
  {| persons := persons db; persons_id_seq := persons_id_seq db;
     games := filter (fun r => negb (same_id (game_id self) (game_id r)))
                     (games db);
     games_id_seq := games_id_seq db |}.

End Models.

Import Models.

(** ** The request context, exceptions and responses (Flask) *)

Module Flask.

(** The parts of [flask.request] the application reads: the
    [Authorization] header, the query string and the parsed JSON body
    ([None] when the request carries no JSON body). *)
Record Request : Type := mkRequest {
  authorization : option string;
  args : list (string * string);
  json : option value
}.

(** What a view can raise: [abort(code, description)], [AuthError], or a
    Python or database exception nobody handles. *)
Inductive Exn : Type :=
| HTTPException (code : Z) (descr : value)
| AuthException (e : AuthError)
| PyError (name : string).

(** An HTTP response: status and, when the body is JSON, its value. *)
Record Response : Type := mkResponse {
  status : Z;
  data : option value
}.

(** A view runs against the request context and the database; it returns
    or raises, and leaves a database state. *)
Definition App (A : Type) : Type := Request -> DB -> (Exn + A) * DB.

Definition ret {A : Type} (a : A) : App A := fun _ db => (inr a, db).

Definition bind {A B : Type} (m : App A) (k : A -> App B) : App B :=
  fun rq db =>
    match m rq db with
    | (inr a, db') => k a rq db'
    | (inl e, db') => (inl e, db')
    end.

Definition raise {A : Type} (e : Exn) : App A := fun _ db => (inl e, db).

(** [abort(code, description)]. *)
Definition abort {A : Type} (code : Z) (descr : value) : App A :=
  raise (HTTPException code descr).

(** The global [request]. *)
Definition request : App Request := fun rq db => (inr rq, db).

(** Reading the database state. *)
Definition query {A : Type} (f : DB -> A) : App A := fun _ db => (inr (f db), db).

(** [db.session.commit()]: the flush takes effect, or the driver or the
    engine refuses a statement, the commit raises the error (one of
    SQLAlchemy's statement errors, named here after their usual class
    [DBAPIError]) and the transaction leaves the database as it was. *)
Definition commit {A : Type} (f : DB -> option (A * DB)) : App A :=
  fun _ db =>
    match f db with
    | Some (a, db') => (inr a, db')
    | None => (inl (PyError "DBAPIError"), db)
    end.

(** [request.get_json()]. *)
Definition get_json (rq : Request) : value :=
  match json rq with
  | Some v => v
  | None => JNull
  end.

Fixpoint multidict_get (items : list (string * string)) (key : string) : option string :=
  match items with
  | [] => None
  | (k, v) :: rest => if (k =? key)%string then Some v else multidict_get rest key
  end.

(** [request.args.get(key, default, type=int)]: the default when the key is
    missing or its value does not convert. *)
Definition args_get_int `{Platform} (rq : Request) (key : string) (default : Z) : Z :=
  match multidict_get (args rq) key with
  | Some s => match py_int s with
              | Some n => n
              | None => default
              end
  | None => default
  end.

(** [body.get(key, default)] on whatever [get_json] returned: only a dict
    has the method. *)
Definition body_get (body : value) (key : string) (default : value) : App value :=
  match body with
  | JObj o => ret (dict_get o key default)
  | _ => raise (PyError "AttributeError")
  end.

(** *** Calling a Python function

    A view is a Python function: a list of parameter names and a body that
    runs once every parameter is bound.  The objects Flask and the
    authorization decorator pass to a view are the decoded payload and the
    string segments of the URL. *)
Inductive PyObj : Type :=
| OPayload (p : Payload)
| OStr (s : string).

Record ViewFunction : Type := mkView {
  params : list string;
  code : list (string * PyObj) -> App value
}.

(** Positional arguments fill the parameters from the left; [None] when more
    are given than the function takes. *)
Fixpoint bind_positional (ps : list string) (pos : list PyObj)
  : option (list (string * PyObj) * list string) :=
  match pos, ps with
  | [], _ => Some ([], ps)
  | _ :: _, [] => None
  | a :: pos', p :: ps' =>
      match bind_positional ps' pos' with
      | Some (env, rest) => Some ((p, a) :: env, rest)
      | None => None
      end
  end.

Fixpoint remove_name (name : string) (ps : list string) : option (list string) :=
  match ps with
  | [] => None
  | p :: ps' =>
      if (p =? name)%string then Some ps'
      else match remove_name name ps' with
           | Some r => Some (p :: r)
           | None => None
           end
  end.

(** Keyword arguments bind the parameters still free; [None] on an
    unexpected keyword, a parameter bound twice, or a parameter left
    without a value. *)
Fixpoint bind_keywords (rest : list string) (kw : list (string * PyObj))
  : option (list (string * PyObj)) :=
  match kw with
  | [] => match rest with
          | [] => Some []
          | _ :: _ => None
          end
  | (k, a) :: kw' =>
      match remove_name k rest with
      | None => None
      | Some rest' =>
          match bind_keywords rest' kw' with
          | Some env => Some ((k, a) :: env)
          | None => None
          end
      end
  end.

Definition bind_args (ps : list string) (pos : list PyObj) (kw : list (string * PyObj))
  : option (list (string * PyObj)) :=
  match bind_positional ps pos with
  | None => None
  | Some (env, rest) =>
      match bind_keywords rest kw with
      | Some env' => Some (env ++ env')
      | None => None
      end
  end.

(** A call of [f] with positional and keyword arguments: a call whose arguments do not fit the signature raises
    [TypeError] before the body starts. *)
Definition call (f : ViewFunction) (pos : list PyObj) (kw : list (string * PyObj))
  : App value :=
  match bind_args (params f) pos kw with
  | Some env => code f env
  | None => raise (PyError "TypeError")
  end.

Fixpoint env_lookup (env : list (string * PyObj)) (name : string) : option PyObj :=
  match env with
  | [] => None
  | (k, a) :: rest => if (k =? name)%string then Some a else env_lookup rest name
  end.

(** The value of a bound parameter, at the type its uses expect. *)
Definition arg_payload (env : list (string * PyObj)) (name : string) : App Payload :=
  match env_lookup env name with
  | Some (OPayload p) => ret p
  | _ => raise (PyError "TypeError")
  end.

Definition arg_str (env : list (string * PyObj)) (name : string) : App string :=
  match env_lookup env name with
  | Some (OStr s) => ret s
  | _ => raise (PyError "TypeError")
  end.


(** [jsonify(d)] with status 200. *)
Definition jsonify (d : list (string * value)) : value := JObj d.

End Flask.

Import Flask.

Declare Scope app_scope.
Delimit Scope app_scope with app.
Notation "x <- m ;; k" := (bind m (fun x => k))
  (at level 100, m at next level, right associativity) : app_scope.
Notation "m ;;; k" := (bind m (fun _ => k))
  (at level 100, right associativity) : app_scope.
Local Open Scope app_scope.

(** ** The authorization decorator (auth.py) *)

Module Auth.

Section Gate.

Context `{Platform}.

(** Modelled from the spec: [auth.py] is imported by [app.py] but is not
    among the sources.  The status of each failure exit is the one section
    4.1 of the specification gives. *)
Definition auth_status (k : AuthFailure) : Z :=
  match k with
  | PermissionsClaimMissing => 400
  | PermissionNotFound => 403
  | _ => 401
  end.

(** Modelled from the spec: the two messages section 4.1 quotes; the others
    are the platform's. *)
Definition auth_description (k : AuthFailure) : string :=
  match k with
  | AuthHeaderMissing => "Authorization header is expected."
  | PermissionNotFound => "Permission not found."
  | _ => auth_message k
  end.

(** Modelled from the spec: raising the [AuthError] of a failure exit of the
    missing [auth.py], with its status and message. *)
Definition auth_error {A : Type} (k : AuthFailure) : App A :=
  raise (AuthException {| failure := k; description := auth_description k;
                          status_code := auth_status k |}).

(** [s.split(sep)] for a one-character separator. *)
Fixpoint split_on (sep : ascii) (s : string) : list string :=
  match s with
  | EmptyString => [EmptyString]
  | String c rest =>
      if Ascii.eqb c sep then EmptyString :: split_on sep rest
      else match split_on sep rest with
           | [] => [String c EmptyString]
           | w :: ws => String c w :: ws
           end
  end.

(** Modelled from the spec: the header checks of section 4.1 ([auth.py] is
    missing): an absent header, a header that does not start with [Bearer],
    one without a token, one with more than two space-separated parts. *)
Definition get_token_auth_header : App string :=
  rq <- request ;;
  match authorization rq with
  | None => auth_error AuthHeaderMissing
  | Some header =>
      match split_on " "%char header with
      | scheme :: rest =>
          if negb (scheme =? "Bearer")%string then auth_error AuthHeaderMalformed
          else match rest with
               | [] => auth_error AuthHeaderMalformed
               | [token] => ret token
               | _ :: _ :: _ => auth_error AuthHeaderMalformed
               end
      | [] => auth_error AuthHeaderMalformed
      end
  end.

(** Modelled from the spec: the permission check of section 4.1 ([auth.py]
    is missing): the [permissions] claim must exist and contain the required
    permission. *)
Definition check_permissions (permission : string) (payload : Payload) : App unit :=
  match permissions payload with
  | None => auth_error PermissionsClaimMissing
  | Some claimed =>
      if existsb (String.eqb permission) claimed then ret tt
      else auth_error PermissionNotFound
  end.

(** Modelled from the spec: token verification in the missing [auth.py]; the
    cryptography is the platform's, its failure is raised as it comes. *)
Definition verify (token : string) : App Payload :=
  match verify_decode_jwt token with
  | inl e => raise (AuthException e)
  | inr payload => ret payload
  end.

(** Modelled from the spec: the gate of section 4.1 alone ([auth.py] is
    missing): the linear pipeline header, token, permission. *)
Definition gate (permission : string) : App Payload :=
  token <- get_token_auth_header ;;
  payload <- verify token ;;
  check_permissions permission payload ;;;
  ret payload.

(** Modelled from the spec: the decorator [requires_auth(permission)] of the
    missing [auth.py].  Section 4.1: on success the decoded payload is
    passed through to the wrapped handler, which runs only after the gate
    has passed; the wrapper forwards the arguments it was itself called
    with. *)
Definition requires_auth (permission : string) (f : ViewFunction)
  (args_ : list PyObj) (kwargs : list (string * PyObj)) : App value :=
  payload <- gate permission ;;
  call f (OPayload payload :: args_) kwargs.

End Gate.

End Auth.

Import Auth.

(** ** app.py: helpers and views *)

Module App.

Section Views.

Context `{Platform}.

(** [get_error_message(error, default_text)]: [error.description['message']]
    when that expression evaluates, else the default text. *)
Definition get_error_message (descr : value) (default_text : string) : value :=
  match descr with
  | JObj o => match dict_lookup o "message" with
              | Some m => m
              | None => JStr default_text
              end
  | _ => JStr default_text
  end.

(** [paginate_results(request, selection)]. *)
Definition paginate_results {A : Type} `{Formattable A}
  (rq : Request) (selection : list A) : list value :=
  let page := args_get_int rq "page" 1 in
  let start := (page - 1) * ROWS_PER_PAGE in
  let end_ := start + ROWS_PER_PAGE in
  let objects_formatted := map format selection in
  py_slice objects_formatted start end_.

(** The double-quote character, as it occurs inside a message. *)
Definition dquote : string := String (ascii_of_nat 34) EmptyString.

Definition message (s : string) : value := JObj [("message", JStr s)].

(** [query.filter(Model.id == id).one_or_none()]: the text parameter is
    coerced by the database; more than one row raises. *)
Definition one_or_none {A : Type} (rows : list A) : App (option A) :=
  match rows with
  | [] => ret None
  | [r] => ret (Some r)
  | _ => raise (PyError "MultipleResultsFound")
  end.

Definition Person_query_by_id (person_id_ : string) : App (option Person) :=
  match sql_int person_id_ with
  | None => raise (PyError "DataError")
  | Some n =>
      rows <- query (fun db => filter (fun r => has_id n (person_id r)) (persons db)) ;;
      one_or_none rows
  end.

Definition Game_query_by_id (game_id_ : string) : App (option Game) :=
  match sql_int game_id_ with
  | None => raise (PyError "DataError")
  | Some n =>
      rows <- query (fun db => filter (fun r => has_id n (game_id r)) (games db)) ;;
      one_or_none rows
  end.

(** [def get_persons():] *)
Definition get_persons : App value :=
  rq <- request ;;
  selection <- query persons ;;
  let persons_paginated := paginate_results rq selection in
  if (len persons_paginated =? 0)%Z
  then abort 404 (message "no persons found in database.")
  else ret (jsonify [("success", JBool true);
                     ("persons", JList persons_paginated)]).

(** [def insert_persons():] *)
Definition insert_persons : App value :=
  rq <- request ;;
  let body := get_json rq in
  if negb (truthy body)
  then abort 400 (message "request does not contain a valid JSON body.")
  else
    name <- body_get body "name" JNull ;;
    age <- body_get body "age" JNull ;;
    gender <- body_get body "gender" (JStr "Other") ;;
    if negb (truthy name) then abort 422 (message "no name provided.")
    else if negb (truthy age) then abort 422 (message "no age provided.")
    else
      new_person <- commit (Person_insert (Person_init name gender age)) ;;
      ret (jsonify [("success", JBool true);
                    ("created", id_value (person_id new_person))]).

(** [def edit_persons(payload, person_id):] *)
Definition edit_persons (payload : Payload) (person_id_ : string) : App value :=
  rq <- request ;;
  let body := get_json rq in
  if (person_id_ =? "")%string
  then abort 400 (message "please append an person id to the request url.")
  else if negb (truthy body)
  then abort 400 (message "request does not contain a valid JSON body.")
  else
    found <- Person_query_by_id person_id_ ;;
    match found with
    | None =>
        abort 404 (message ("Person with id " ++ person_id_ ++ " not found in database.")%string)
    | Some person_to_update =>
        name <- body_get body "name" (person_name person_to_update) ;;
        age <- body_get body "age" (person_age person_to_update) ;;
        gender <- body_get body "gender" (person_gender person_to_update) ;;
        let assigned :=
          {| person_id := person_id person_to_update; person_name := name;
             person_gender := gender; person_age := age |} in
        person_to_update <- commit (Person_update person_to_update assigned) ;;
        ret (jsonify [("success", JBool true);
                      ("updated", id_value (person_id person_to_update));
                      ("person", JList [format person_to_update])])
    end.

(** [def delete_persons(payload, person_id):] *)
Definition delete_persons (payload : Payload) (person_id_ : string) : App value :=
  if (person_id_ =? "")%string
  then abort 400 (message "please append an person id to the request url.")
  else
    found <- Person_query_by_id person_id_ ;;
    match found with
    | None =>
        abort 404 (message ("Person with id " ++ person_id_ ++ " not found in database.")%string)
    | Some person_to_delete =>
        commit (fun db => Some (tt, Person_delete person_to_delete db)) ;;;
        ret (jsonify [("success", JBool true);
                      ("deleted", JStr person_id_)])
    end.

(** [def get_games(payload):] *)
Definition get_games (payload : Payload) : App value :=
  rq <- request ;;
  selection <- query games ;;
  let games_paginated := paginate_results rq selection in
  if (len games_paginated =? 0)%Z
  then abort 404 (message "no games found in database.")
  else ret (jsonify [("success", JBool true);
                     ("games", JList games_paginated)]).

(** [def insert_games(payload):] *)
Definition insert_games (payload : Payload) : App value :=
  rq <- request ;;
  let body := get_json rq in
  if negb (truthy body)
  then abort 400 (message "request does not contain a valid JSON body.")
  else
    title <- body_get body "title" JNull ;;
    release_date <- body_get body "release_date" JNull ;;
    if negb (truthy title) then abort 422 (message "no title provided.")
    else if negb (truthy release_date)
    then abort 422 (message ("no " ++ dquote ++ "release_date" ++ dquote ++ " provided.")%string)
    else
      new_game <- commit (Game_insert (Game_init title release_date)) ;;
      ret (jsonify [("success", JBool true);
                    ("created", id_value (game_id new_game))]).

(** [def edit_games(payload, game_id):] *)
Definition edit_games (payload : Payload) (game_id_ : string) : App value :=
  rq <- request ;;
  let body := get_json rq in
  if (game_id_ =? "")%string
  then abort 400 (message "please append an game id to the request url.")
  else if negb (truthy body)
  then abort 400 (message "request does not contain a valid JSON body.")
  else
    found <- Game_query_by_id game_id_ ;;
    match found with
    | None =>
        abort 404 (message ("Game with id " ++ game_id_ ++ " not found in database.")%string)
    | Some game_to_update =>
        title <- body_get body "title" (game_title game_to_update) ;;
        release_date <- body_get body "release_date" (game_release_date game_to_update) ;;
        let assigned :=
          {| game_id := game_id game_to_update; game_title := title;
             game_release_date := release_date |} in
        game_to_update <- commit (Game_update game_to_update assigned) ;;
        ret (jsonify [("success", JBool true);
                      ("edited", id_value (game_id game_to_update));
                      ("game", JList [format game_to_update])])
    end.

(** [def delete_games(payload, game_id):] *)
Definition delete_games (payload : Payload) (game_id_ : string) : App value :=
  if (game_id_ =? "")%string
  then abort 400 (message "please append an game id to the request url.")
  else
    found <- Game_query_by_id game_id_ ;;
    match found with
    | None =>
        abort 404 (message ("Game with id " ++ game_id_ ++ " not found in database.")%string)
    | Some game_to_delete =>
        commit (fun db => Some (tt, Game_delete game_to_delete db)) ;;;
        ret (jsonify [("success", JBool true);
                      ("deleted", JStr game_id_)])
    end.

(** *** The views as Python functions, with the signatures of their [def] *)

Definition view_get_persons : ViewFunction :=
  {| params := [];
     code := fun _ => get_persons |}.

Definition view_insert_persons : ViewFunction :=
  {| params := [];
     code := fun _ => insert_persons |}.

Definition view_edit_persons : ViewFunction :=
  {| params := ["payload"; "person_id"];
     code := fun env =>
       payload <- arg_payload env "payload" ;;
       person_id_ <- arg_str env "person_id" ;;
       edit_persons payload person_id_ |}.

Definition view_delete_persons : ViewFunction :=
  {| params := ["payload"; "person_id"];
     code := fun env =>
       payload <- arg_payload env "payload" ;;
       person_id_ <- arg_str env "person_id" ;;
       delete_persons payload person_id_ |}.

Definition view_get_games : ViewFunction :=
  {| params := ["payload"];
     code := fun env =>
       payload <- arg_payload env "payload" ;;
       get_games payload |}.

Definition view_insert_games : ViewFunction :=
  {| params := ["payload"];
     code := fun env =>
       payload <- arg_payload env "payload" ;;
       insert_games payload |}.

Definition view_edit_games : ViewFunction :=
  {| params := ["payload"; "game_id"];
     code := fun env =>
       payload <- arg_payload env "payload" ;;
       game_id_ <- arg_str env "game_id" ;;
       edit_games payload game_id_ |}.

Definition view_delete_games : ViewFunction :=
  {| params := ["payload"; "game_id"];
     code := fun env =>
       payload <- arg_payload env "payload" ;;
       game_id_ <- arg_str env "game_id" ;;
       delete_games payload game_id_ |}.

(** *** Routing: [@app.route(...)] above [@requires_auth(...)] *)

(** A matched URL rule together with the segment its variable captured. *)
Inductive Endpoint : Type :=
| GET_persons
| POST_persons
| PATCH_persons (person_id_ : string)
| DELETE_persons (person_id_ : string)
| GET_games
| POST_games
| PATCH_games (game_id_ : string)
| DELETE_games (game_id_ : string).

(** The rule table: for each endpoint the permission its decorator names,
    the decorated function, and the URL variables Flask passes as keyword
    arguments. *)
Definition route (ep : Endpoint) : string * ViewFunction * list (string * PyObj) :=
  match ep with
  | GET_persons => ("read:persons", view_get_persons, [])
  | POST_persons => ("create:persons", view_insert_persons, [])
  | PATCH_persons i => ("edit:persons", view_edit_persons, [("person_id", OStr i)])
  | DELETE_persons i => ("delete:persons", view_delete_persons, [("person_id", OStr i)])
  | GET_games => ("read:games", view_get_games, [])
  | POST_games => ("create:games", view_insert_games, [])
  | PATCH_games i => ("edit:games", view_edit_games, [("game_id", OStr i)])
  | DELETE_games i => ("delete:games", view_delete_games, [("game_id", OStr i)])
  end.

Definition permission_of (ep : Endpoint) : string := fst (fst (route ep)).

(** Flask calls the registered function, which is the decorator's wrapper,
    with the URL variables as keyword arguments. *)
Definition dispatch_request (ep : Endpoint) : App value :=
  let '(permission, view, view_args) := route ep in
  requires_auth permission view [] view_args.

(** *** Error handlers *)

Definition error_envelope (code : Z) (msg : value) : value :=
  JObj [("success", JBool false); ("error", JNum code); ("message", msg)].

(** [@app.errorhandler(422)] *)
Definition unprocessable (descr : value) : Response :=
  {| status := 422;
     data := Some (error_envelope 422 (get_error_message descr "unprocessable")) |}.

(** [@app.errorhandler(400)] *)
Definition bad_request (descr : value) : Response :=
  {| status := 400;
     data := Some (error_envelope 400 (get_error_message descr "bad request")) |}.

(** [@app.errorhandler(404)] *)
Definition ressource_not_found (descr : value) : Response :=
  {| status := 404;
     data := Some (error_envelope 404 (get_error_message descr "resource not found")) |}.

(** [@app.errorhandler(AuthError)] *)
Definition authentification_failed (e : AuthError) : Response :=
  {| status := status_code e;
     data := Some (error_envelope (status_code e) (JStr (description e))) |}.

(** The handler registered for the exception; an [abort] with another code
    and an exception without a handler produce a response that is not JSON
    (status 500 for the latter). *)
Definition handle_exception (e : Exn) : Response :=
  match e with
  | HTTPException code descr =>
      if code =? 422 then unprocessable descr
      else if code =? 400 then bad_request descr
      else if code =? 404 then ressource_not_found descr
      else {| status := code; data := None |}
  | AuthException a => authentification_failed a
  | PyError _ => {| status := 500; data := None |}
  end.

(** The response to what a view returned or raised. *)
Definition respond (r : Exn + value) : Response :=
  match r with
  | inr v => {| status := 200; data := Some v |}
  | inl e => handle_exception e
  end.

(** One request against one database state. *)
Definition full_dispatch_request (ep : Endpoint) (rq : Request) (db : DB)
  : Response * DB :=
  let (r, db') := dispatch_request ep rq db in (respond r, db').

End Views.

End App.

Import App.

(** ** A concrete platform and database for running the model *)

Module Fixture.

Definition digit_of (c : ascii) : option Z :=
  let n := Z.of_nat (nat_of_ascii c) in
  if (48 <=? n) && (n <=? 57) then Some (n - 48) else None.

Fixpoint digits (s : string) (acc : Z) : option Z :=
  match s with
  | EmptyString => Some acc
  | String c rest =>
      match digit_of c with
      | Some d => digits rest (10 * acc + d)
      | None => None
      end
  end.

(** Plain decimal numerals, which both Python's [int] and the database
    accept with this value. *)
Definition decimal (s : string) : option Z :=
  match s with
  | EmptyString => None
  | String _ _ => digits s 0
  end.

(** The three roles of [test_app.py], each behind a token of its own. *)
Definition casting_assistant : Payload :=
  {| sub := "casting_assistant";
     permissions := Some ["read:persons"; "read:games"] |}.

Definition casting_director : Payload :=
  {| sub := "casting_director";
     permissions := Some ["read:persons"; "read:games"; "create:persons";
                          "edit:persons"; "delete:persons"; "edit:games"] |}.

Definition executive_producer : Payload :=
  {| sub := "executive_producer";
     permissions := Some ["read:persons"; "read:games"; "create:persons";
                          "edit:persons"; "delete:persons"; "create:games";
                          "edit:games"; "delete:games"] |}.

Definition test_verify (token : string) : AuthError + Payload :=
  if (token =? "assistant-token")%string then inr casting_assistant
  else if (token =? "director-token")%string then inr casting_director
  else if (token =? "producer-token")%string then inr executive_producer
  else inl {| failure := TokenParsingError;
              description := "Unable to parse authentication token.";
              status_code := 401 |}.

(** Decimal numerals with an optional leading minus sign. *)
Definition signed_decimal (s : string) : option Z :=
  match s with
  | String "-"%char rest =>
      match decimal rest with
      | Some n => Some (- n)
      | None => None
      end
  | _ => decimal s
  end.

(** *** A database engine

    The engine behind the models, following PostgreSQL (the engine
    [database_path] names) with the psycopg2 driver on the values the cases
    below bind. *)

(** The decimal numeral of an integer. *)
Definition numeral (n : Z) : string :=
  DecimalString.NilZero.string_of_int (Z.to_int n).

(** A [String] column takes a string as it is, and a number or a boolean as
    its text; a list, a dict and a date are refused. *)
Definition test_store_string (v : value) : option value :=
  match v with
  | JStr s => Some (JStr s)
  | JNum n => Some (JStr (numeral n))
  | JBool b => Some (JStr (if b then "true" else "false"))
  | _ => None
  end.

(** The range of the four-byte [Integer] column. *)
Definition in_int4 (n : Z) : bool := (-2147483648 <=? n) && (n <=? 2147483647).

(** An [Integer] column takes a number within its range, and a string that
    is the numeral of one, as that number; everything else is refused. *)
Definition test_store_integer (v : value) : option value :=
  match v with
  | JNum n => if in_int4 n then Some (JNum n) else None
  | JStr s =>
      match signed_decimal s with
      | Some n => if in_int4 n then Some (JNum n) else None
      | None => None
      end
  | _ => None
  end.

Definition leap_year (y : Z) : bool :=
  ((y mod 4 =? 0) && negb (y mod 100 =? 0)) || (y mod 400 =? 0).

Definition days_in_month (y m : Z) : Z :=
  if m =? 2 then (if leap_year y then 29 else 28)
  else if (m =? 4) || (m =? 6) || (m =? 9) || (m =? 11) then 30
  else 31.

Definition valid_date (y m d : Z) : bool :=
  (1 <=? y) && (y <=? 9999) && (1 <=? m) && (m <=? 12)
  && (1 <=? d) && (d <=? days_in_month y m).

(** A [Date] column takes a date, and a string of the form year-month-day
    that names a day of the calendar, as that date; everything else is
    refused. *)
Definition test_store_date (v : value) : option value :=
  match v with
  | JDate y m d => if valid_date y m d then Some (JDate y m d) else None
  | JStr s =>
      match map decimal (split_on "-"%char s) with
      | [Some y; Some m; Some d] =>
          if valid_date y m d then Some (JDate y m d) else None
      | _ => None
      end
  | _ => None
  end.

(** The scan shows a written row after all others: a new row and the new
    version of an updated row go to the end of the table. *)
Definition test_scan_slot (others : list value) (row : value) : nat := length others.

Definition test_platform : Platform :=
  {| ROWS_PER_PAGE := 10;
     py_int := decimal;
     sql_int := decimal;
     store_string := test_store_string;
     store_integer := test_store_integer;
     store_date := test_store_date;
     scan_slot := test_scan_slot;
     verify_decode_jwt := test_verify;
     auth_message := fun _ => "Unauthorized." |}.

(** The database after [db_drop_and_create_all()]: the records of
    [db_init_records], inserted into empty tables. *)
Definition empty_db : DB :=
  {| persons := []; persons_id_seq := 0; games := []; games_id_seq := 0 |}.

(** [db_init_records()] on the database [db]; [None] when an insert
    raises. *)
Definition db_init_records `{Platform} (today : value) (db : DB) : option DB :=
  let new_person := Person_init (JStr "Matthew") (JStr "Male") (JNum 25) in
  let new_game := Game_init (JStr "Matthew first Game") today in
  match Person_insert new_person db with
  | Some (_, db1) =>
      match Game_insert new_game db1 with
      | Some (_, db2) => Some db2
      | None => None
      end
  | None => None
  end.

Definition test_db : DB :=
  match db_init_records (H := test_platform) (JDate 2020 5 17) empty_db with
  | Some db => db
  | None => empty_db
  end.

(** [n] persons with the ids 1 to [n]. *)
Definition roster (n : nat) : list Person :=
  map (fun i => {| person_id := Some (Z.of_nat i); person_name := JStr "Crisso";
                   person_gender := JStr "Other"; person_age := JNum 25 |})
      (seq 1 n).

Definition request_with (auth : option string) (page : option string)
  (body : option value) : Request :=
  {| authorization := auth;
     args := match page with Some p => [("page", p)] | None => [] end;
     json := body |}.

End Fixture.

Import Fixture.

(** ** Vocabulary of the properties *)

Module Props.

(** The rows a query by primary key selects. *)
Definition persons_with_id (n : Z) (db : DB) : list Person :=
  filter (fun r => has_id n (person_id r)) (persons db).

Definition games_with_id (n : Z) (db : DB) : list Game :=
  filter (fun r => has_id n (game_id r)) (games db).

(** The request body does not carry the key: it is no dict, or a dict
    without it. *)
Definition omits (body : value) (key : string) : bool :=
  match body with
  | JObj o => match dict_lookup o key with
              | Some _ => false
              | None => true
              end
  | _ => true
  end.

(** A record after a PATCH with the dict [o]: every field takes the value
    under its key, or keeps its own when the key is absent. *)
Definition patch_person (p : Person) (o : list (string * value)) : Person :=
  {| person_id := person_id p;
     person_name := dict_get o "name" (person_name p);
     person_gender := dict_get o "gender" (person_gender p);
     person_age := dict_get o "age" (person_age p) |}.

Definition patch_game (g : Game) (o : list (string * value)) : Game :=
  {| game_id := game_id g;
     game_title := dict_get o "title" (game_title g);
     game_release_date := dict_get o "release_date" (game_release_date g) |}.

(** The value is a string with at least one character. *)
Definition nonempty_string (v : value) : bool :=
  match v with
  | JStr s => negb (s =? "")%string
  | _ => false
  end.

(** Every stored name and title is a non-empty string. *)
Definition names_nonempty (db : DB) : bool :=
  forallb (fun r => nonempty_string (person_name r)) (persons db)
  && forallb (fun r => nonempty_string (game_title r)) (games db).

(** A view invoked with the arguments its [def] declares, in a request
    context. *)
Inductive Operation : Type :=
| OpGetPersons (rq : Request)
| OpInsertPersons (rq : Request)
| OpEditPersons (payload : Payload) (person_id_ : string) (rq : Request)
| OpDeletePersons (payload : Payload) (person_id_ : string) (rq : Request)
| OpGetGames (payload : Payload) (rq : Request)
| OpInsertGames (payload : Payload) (rq : Request)
| OpEditGames (payload : Payload) (game_id_ : string) (rq : Request)
| OpDeleteGames (payload : Payload) (game_id_ : string) (rq : Request).

Definition perform `{Platform} (op : Operation) (db : DB) : (Exn + value) * DB :=
  match op with
  | OpGetPersons rq => get_persons rq db
  | OpInsertPersons rq => insert_persons rq db
  | OpEditPersons payload i rq => edit_persons payload i rq db
  | OpDeletePersons payload i rq => delete_persons payload i rq db
  | OpGetGames payload rq => get_games payload rq db
  | OpInsertGames payload rq => insert_games payload rq db
  | OpEditGames payload i rq => edit_games payload i rq db
  | OpDeleteGames payload i rq => delete_games payload i rq db
  end.

(** The database after a sequence of operations. *)
Fixpoint perform_all `{Platform} (ops : list Operation) (db : DB) : DB :=
  match ops with
  | [] => db
  | op :: rest => perform_all rest (snd (perform op db))
  end.

(** The request body supplies no value that tests false under the key: it
    is no dict, a dict without the key, or a dict with a value there that
    passes the presence test [if not x] of the POST views. *)
Definition supplies_nothing_false (body : value) (key : string) : bool :=
  match body with
  | JObj o => match dict_lookup o key with
              | Some v => truthy v
              | None => true
              end
  | _ => true
  end.

(** The operation is not a PATCH whose body supplies a name (a title) that
    tests false. *)
Definition names_pass_test (op : Operation) : bool :=
  match op with
  | OpEditPersons _ _ rq => supplies_nothing_false (get_json rq) "name"
  | OpEditGames _ _ rq => supplies_nothing_false (get_json rq) "title"
  | _ => true
  end.

(** The engine keeps a name: a value that tests true, bound to a [String]
    column, is refused or held as a non-empty string. *)
Definition keeps_names `{Platform} : Prop :=
  forall v s, truthy v = true -> store_string v = Some s -> nonempty_string s = true.

End Props.

Import Props.

(** ** Vocabulary of the further properties *)

Module Keys.

(** A primary key that the sequence has already handed out. *)
Definition key_below (bound : Z) (i : option Z) : bool :=
  match i with
  | Some m => m <=? bound
  | None => false
  end.

(** No key occurs twice. *)
Fixpoint distinct_keys (ids : list (option Z)) : bool :=
  match ids with
  | [] => true
  | i :: rest => negb (existsb (same_id i) rest) && distinct_keys rest
  end.

(** Both tables hold rows with distinct keys, none beyond its sequence. *)
Definition well_keyed (db : DB) : bool :=
  forallb (key_below (persons_id_seq db)) (map person_id (persons db))
  && distinct_keys (map person_id (persons db))
  && forallb (key_below (games_id_seq db)) (map game_id (games db))
  && distinct_keys (map game_id (games db)).

(** A request body that tests true without being a dict. *)
Definition truthy_non_dict (body : value) : bool :=
  match body with
  | JObj _ => false
  | _ => truthy body
  end.

(** The two shapes of a JSON answer. *)
Definition success_envelope (r : Response) : Prop :=
  status r = 200
  /\ exists d, data r = Some (JObj (("success", JBool true) :: d)).

Definition failure_envelope (r : Response) : Prop :=
  (status r = 400 \/ status r = 404 \/ status r = 422)
  /\ exists m, data r = Some (error_envelope (status r) (JStr m)).

(** What a view did with a database [db]: it answered with the success
    envelope, or it refused with a failure envelope or crashed with a bare
    500, and then the database is still [db]. *)
Definition answered_or_unchanged (r : (Exn + value) * DB) (db : DB) : Prop :=
  success_envelope (respond (fst r))
  \/ (failure_envelope (respond (fst r)) /\ snd r = db)
  \/ (status (respond (fst r)) = 500 /\ data (respond (fst r)) = None
      /\ snd r = db).

(** A request whose query string asks for the page [p]. *)
Definition asks_page `{Platform} (rq : Request) (p : Z) : Prop :=
  args_get_int rq "page" 1 = p.

End Keys.

Import Keys.

(** ** A platform whose integer conversion reads a sign *)

Module SignedFixture.

(** Python's [int] reads a numeral with a leading minus sign. *)
Definition signed_platform : Platform :=
  {| ROWS_PER_PAGE := 10;
     py_int := signed_decimal;
     sql_int := decimal;
     store_string := test_store_string;
     store_integer := test_store_integer;
     store_date := test_store_date;
     scan_slot := test_scan_slot;
     verify_decode_jwt := test_verify;
     auth_message := fun _ => "Unauthorized." |}.

End SignedFixture.

Import SignedFixture.

(** * Properties *)

(** ** Slicing *)

Section Slices.

Context {A : Type}.

Lemma slice_from_past (l : list A) : forall i0 lo hi,
  hi <= i0 -> slice_from i0 lo hi l = [].
Proof.
  induction l as [|x l IH]; intros i0 lo hi Hhi; simpl; [reflexivity|].
  replace (i0 <? hi) with false by (symmetry; apply Z.ltb_ge; lia).
  rewrite andb_false_r. apply IH. lia.
Qed.

Lemma slice_from_firstn (l : list A) : forall (b : nat) i0 lo,
  lo <= i0 -> slice_from i0 lo (i0 + Z.of_nat b) l = firstn b l.
Proof.
  induction l as [|x l IH]; intros b i0 lo Hlo.
  - now rewrite firstn_nil.
  - destruct b as [|b]; cbn [slice_from firstn].
    + replace (i0 <? i0 + Z.of_nat 0) with false
        by (symmetry; apply Z.ltb_ge; lia).
      rewrite andb_false_r. apply slice_from_past. lia.
    + replace (lo <=? i0) with true by (symmetry; apply Z.leb_le; lia).
      replace (i0 <? i0 + Z.of_nat (S b)) with true
        by (symmetry; apply Z.ltb_lt; lia).
      cbn [andb]. f_equal.
      replace (i0 + Z.of_nat (S b)) with ((i0 + 1) + Z.of_nat b) by lia.
      apply IH. lia.
Qed.

Lemma slice_from_skipn (l : list A) : forall (a : nat) i0 hi,
  slice_from i0 (i0 + Z.of_nat a) hi l
  = slice_from (i0 + Z.of_nat a) (i0 + Z.of_nat a) hi (skipn a l).
Proof.
  induction l as [|x l IH]; intros a i0 hi.
  - now rewrite skipn_nil.
  - destruct a as [|a]; cbn [skipn].
    + now replace (i0 + Z.of_nat 0) with i0 by lia.
    + cbn [slice_from].
      replace (i0 + Z.of_nat (S a) <=? i0) with false
        by (symmetry; apply Z.leb_gt; lia).
      cbn [andb].
      replace (i0 + Z.of_nat (S a)) with ((i0 + 1) + Z.of_nat a) by lia.
      apply IH.
Qed.

(** The elements with index in [lo, hi), for bounds in order and not
    negative, are what dropping [lo] and keeping [hi - lo] leaves. *)
Lemma spec_slice_firstn_skipn (l : list A) (lo hi : Z) :
  0 <= lo <= hi ->
  spec_slice l lo hi = firstn (Z.to_nat (hi - lo)) (skipn (Z.to_nat lo) l).
Proof.
  intros Hb. unfold spec_slice.
  replace lo with (0 + Z.of_nat (Z.to_nat lo)) at 1 by lia.
  rewrite slice_from_skipn.
  replace hi with ((0 + Z.of_nat (Z.to_nat lo)) + Z.of_nat (Z.to_nat (hi - lo))) at 1 by lia.
  apply slice_from_firstn. lia.
Qed.

(** Python's slice agrees with the mathematical one on such bounds: the
    clamping of the bounds to the length changes nothing. *)
Lemma py_slice_spec_slice (l : list A) (lo hi : Z) :
  0 <= lo <= hi -> py_slice l lo hi = spec_slice l lo hi.
Proof.
  intros Hb. rewrite spec_slice_firstn_skipn by assumption.
  unfold py_slice, slice_index.
  replace (lo <? 0) with false by (symmetry; apply Z.ltb_ge; lia).
  replace (hi <? 0) with false by (symmetry; apply Z.ltb_ge; lia).
  set (n := Z.of_nat (length l)).
  destruct (Z_lt_ge_dec lo n) as [Hlt|Hge].
  - replace (Z.min lo n) with lo by lia.
    destruct (Z_le_gt_dec hi n) as [Hle|Hgt].
    + now replace (Z.min hi n) with hi by lia.
    + replace (Z.min hi n) with n by lia.
      rewrite !firstn_all2; [reflexivity| |];
        rewrite length_skipn; subst n; lia.
  - rewrite (skipn_all2 l (n := Z.to_nat (Z.min lo n))) by (subst n; lia).
    rewrite (skipn_all2 l (n := Z.to_nat lo)) by (subst n; lia).
    now rewrite !firstn_nil.
Qed.

Lemma py_slice_beyond (l : list A) (lo hi : Z) :
  Z.of_nat (length l) <= lo -> py_slice l lo hi = [].
Proof.
  intros Hlo. unfold py_slice, slice_index.
  replace (lo <? 0) with false by (symmetry; apply Z.ltb_ge; lia).
  rewrite (skipn_all2 l (n := Z.to_nat (Z.min lo _))) by lia.
  apply firstn_nil.
Qed.

Lemma py_slice_length (l : list A) (lo hi : Z) :
  0 <= lo <= hi -> Z.of_nat (length (py_slice l lo hi)) <= hi - lo.
Proof.
  intros Hb. unfold py_slice, slice_index.
  replace (lo <? 0) with false by (symmetry; apply Z.ltb_ge; lia).
  replace (hi <? 0) with false by (symmetry; apply Z.ltb_ge; lia).
  rewrite length_firstn. lia.
Qed.

End Slices.

(** ** Pagination *)

Section Pagination.

Context `{Platform}.

(** C2. For a page number [p >= 1] (and a page size that is not negative)
    [paginate_results] returns exactly the elements of the formatted
    collection whose index lies in [(p-1)*N, p*N), at most [N] of them, and
    the empty list when the page starts at or past the end of the
    collection.  The helper is a total function: it has no error exit. *)
Theorem paginate_results_is_slice {A : Type} `{Formattable A}
  (rq : Request) (C : list A) (p : Z) :
  0 <= ROWS_PER_PAGE ->
  args_get_int rq "page" 1 = p ->
  1 <= p ->
  paginate_results rq C
    = spec_slice (map format C) ((p - 1) * ROWS_PER_PAGE) (p * ROWS_PER_PAGE)
  /\ len (paginate_results rq C) <= ROWS_PER_PAGE
  /\ (len C <= (p - 1) * ROWS_PER_PAGE -> paginate_results rq C = []).
Proof.
  intros HN Hpage Hp. unfold paginate_results. rewrite Hpage.
  assert (Hb : 0 <= (p - 1) * ROWS_PER_PAGE <= (p - 1) * ROWS_PER_PAGE + ROWS_PER_PAGE)
    by nia.
  repeat split.
  - rewrite py_slice_spec_slice by exact Hb. f_equal. ring.
  - unfold len. pose proof (py_slice_length (map format C) _ _ Hb). lia.
  - intros Hlen. apply py_slice_beyond. unfold len in Hlen.
    now rewrite length_map.
Qed.

End Pagination.

(** The second page of twelve records, ten to a page, holds the last two. *)
Lemma paginate_results_is_slice_witness :
  paginate_results (H := test_platform) (request_with None (Some "2") None) (roster 12)
    = spec_slice (map format (roster 12)) ((2 - 1) * 10) (2 * 10)
  /\ len (paginate_results (H := test_platform)
            (request_with None (Some "2") None) (roster 12)) <= 10
  /\ (len (roster 12) <= (2 - 1) * 10 ->
      paginate_results (H := test_platform)
        (request_with None (Some "2") None) (roster 12) = []).
Proof.
  apply (@paginate_results_is_slice test_platform Person _
           (request_with None (Some "2") None) (roster 12) 2).
  - vm_compute. discriminate.
  - reflexivity.
  - lia.
Defined.

(** ** The views, one request at a time *)

(** Unfolds the plumbing of [App] so that a view reduces along the branch
    the hypotheses select. *)
Ltac run_view :=
  unfold abort, body_get, one_or_none, bind, ret, raise, request, query, commit;
  cbn beta iota.

Section Listing.

Context `{Platform}.

(** C5. When the paginated slice is empty, whatever the reason, the list
    views abort with 404 and their own message, which the 404 handler turns
    into the error envelope; the database is left as it was. *)
Theorem empty_page_is_not_found (rq : Request) (db : DB) (payload : Payload) :
  (paginate_results rq (persons db) = [] ->
     get_persons rq db
       = (inl (HTTPException 404 (message "no persons found in database.")), db)
     /\ respond (fst (get_persons rq db))
       = {| status := 404;
            data := Some (error_envelope 404 (JStr "no persons found in database.")) |})
  /\ (paginate_results rq (games db) = [] ->
     get_games payload rq db
       = (inl (HTTPException 404 (message "no games found in database.")), db)
     /\ respond (fst (get_games payload rq db))
       = {| status := 404;
            data := Some (error_envelope 404 (JStr "no games found in database.")) |}).
Proof.
  split; intros Hempty.
  - assert (E : get_persons rq db
       = (inl (HTTPException 404 (message "no persons found in database.")), db)).
    { unfold get_persons. run_view. now rewrite Hempty. }
    split; [exact E | now rewrite E].
  - assert (E : get_games payload rq db
       = (inl (HTTPException 404 (message "no games found in database.")), db)).
    { unfold get_games. run_view. now rewrite Hempty. }
    split; [exact E | now rewrite E].
Qed.

(** The two ways to an empty slice: no rows at all, or a page that starts
    past the last row. *)
Lemma empty_collection_empty_page {A : Type} `{Formattable A} (rq : Request) :
  paginate_results rq (@nil A) = [].
Proof.
  unfold paginate_results, py_slice. cbn [map].
  rewrite skipn_nil. apply firstn_nil.
Qed.

Lemma page_beyond_range_empty_page {A : Type} `{Formattable A}
  (rq : Request) (C : list A) :
  len C <= (args_get_int rq "page" 1 - 1) * ROWS_PER_PAGE ->
  paginate_results rq C = [].
Proof.
  intros Hlen. unfold paginate_results. apply py_slice_beyond.
  unfold len in Hlen. now rewrite length_map.
Qed.

End Listing.

(** Page 1125125125 of the test database, as in [test_error_404_get_persons]
    and [test_error_404_get_games]. *)
Lemma empty_page_is_not_found_witness :
  let rq := request_with None (Some "1125125125") None in
  respond (fst (get_persons (H := test_platform) rq test_db))
    = {| status := 404;
         data := Some (error_envelope 404 (JStr "no persons found in database.")) |}
  /\ respond (fst (get_games (H := test_platform) casting_assistant rq test_db))
    = {| status := 404;
         data := Some (error_envelope 404 (JStr "no games found in database.")) |}.
Proof.
  intros rq.
  destruct (@empty_page_is_not_found test_platform rq test_db casting_assistant)
    as [HP HG].
  split.
  - apply HP. reflexivity.
  - apply HG. reflexivity.
Defined.

Section Creation.

Context `{Platform}.

(** C10. A POST whose body is missing, or is a JSON value that tests false
    (null, false, 0, the empty string, list or object), is answered with 400
    and the message below; no field is looked at and nothing is stored. *)
Theorem post_without_body_is_bad_request (rq : Request) (db : DB) (payload : Payload) :
  truthy (get_json rq) = false ->
  let bad := HTTPException 400 (message "request does not contain a valid JSON body.") in
  let answer := {| status := 400;
                   data := Some (error_envelope 400
                     (JStr "request does not contain a valid JSON body.")) |} in
  insert_persons rq db = (inl bad, db)
  /\ insert_games payload rq db = (inl bad, db)
  /\ respond (inl bad) = answer.
Proof.
  intros Hbody bad answer. repeat split.
  - unfold insert_persons. run_view. now rewrite Hbody.
  - unfold insert_games. run_view. now rewrite Hbody.
Qed.

(** The amended C7. A POST /persons body that is a dict with a name and an
    age, both passing the handler's presence test, and without a gender.
    When the database takes the name and the default "Other" into its
    [String] columns and the age into its [Integer] column, the person is
    created under the next id with what these columns then hold - for the
    gender, what a [String] column holds for "Other" - and the answer is
    [{success: true, created: id}] with that integer id.  When the database
    refuses one of the three, the commit raises, the answer is a bare 500 and
    nothing is created. *)
Theorem insert_persons_defaults_gender
  (rq : Request) (db : DB) (o : list (string * value)) (name age : value) :
  get_json rq = JObj o ->
  dict_lookup o "name" = Some name ->
  dict_lookup o "age" = Some age ->
  dict_lookup o "gender" = None ->
  truthy name = true ->
  truthy age = true ->
  let new_id := persons_id_seq db + 1 in
  let db' := snd (insert_persons rq db) in
  (forall name' gender' age',
     store_string name = Some name' ->
     store_string (JStr "Other") = Some gender' ->
     store_integer age = Some age' ->
     let created := {| person_id := Some new_id; person_name := name';
                       person_gender := gender'; person_age := age' |} in
     fst (insert_persons rq db)
       = inr (JObj [("success", JBool true); ("created", JNum new_id)])
     /\ respond (fst (insert_persons rq db))
       = {| status := 200;
            data := Some (JObj [("success", JBool true); ("created", JNum new_id)]) |}
     /\ persons db'
       = place (scan_slot (map format (persons db)) (format created)) created (persons db)
     /\ persons_id_seq db' = new_id
     /\ games db' = games db)
  /\ (store_string name = None \/ store_string (JStr "Other") = None
      \/ store_integer age = None ->
      insert_persons rq db = (inl (PyError "DBAPIError"), db)
      /\ respond (fst (insert_persons rq db)) = {| status := 500; data := None |}).
Proof.
  intros Hbody Hname Hage Hgender Tname Tage new_id db'.
  assert (Hobj : truthy (JObj o) = true).
  { destruct o; [discriminate Hname | reflexivity]. }
  assert (Bname : bind_param store_string name = store_string name)
    by (destruct name; try reflexivity; discriminate Tname).
  assert (Bage : bind_param store_integer age = store_integer age)
    by (destruct age; try reflexivity; discriminate Tage).
  assert (E : insert_persons rq db
    = match Person_insert (Person_init name (JStr "Other") age) db with
      | Some (row, db1) =>
          (inr (JObj [("success", JBool true); ("created", id_value (person_id row))]),
           db1)
      | None => (inl (PyError "DBAPIError"), db)
      end).
  { unfold insert_persons. run_view. rewrite Hbody, Hobj. cbn [negb].
    unfold dict_get. rewrite Hname, Hage, Hgender. cbn beta iota.
    rewrite Tname, Tage. cbn [negb].
    now destruct (Person_insert (Person_init name (JStr "Other") age) db)
      as [[row db1]|]. }
  subst db'. rewrite E. unfold Person_insert, Person_init; cbn [person_name
    person_gender person_age bind_param]. rewrite Bname, Bage. split.
  - intros name' gender' age' Sname Sgender Sage.
    rewrite Sname, Sgender, Sage. cbn [fst snd]. repeat split.
  - intros [Sname | [Sgender | Sage]].
    + rewrite Sname. split; reflexivity.
    + rewrite Sgender. destruct (store_string name); split; reflexivity.
    + rewrite Sage.
      destruct (store_string name); destruct (store_string (JStr "Other"));
        split; reflexivity.
Qed.

(** The amended C6. A POST whose body is a non-empty dict is answered with
    422 and the message naming the first required field that is missing or
    tests false - name before age, title before release_date - and nothing
    is stored. *)
Theorem post_missing_field_is_unprocessable
  (rq : Request) (db : DB) (payload : Payload) (o : list (string * value)) :
  get_json rq = JObj o ->
  o <> [] ->
  let refuse (text : string) (r : (Exn + value) * DB) :=
    r = (inl (HTTPException 422 (message text)), db)
    /\ respond (fst r)
       = {| status := 422; data := Some (error_envelope 422 (JStr text)) |} in
  (truthy (dict_get o "name" JNull) = false ->
     refuse "no name provided." (insert_persons rq db))
  /\ (truthy (dict_get o "name" JNull) = true ->
      truthy (dict_get o "age" JNull) = false ->
     refuse "no age provided." (insert_persons rq db))
  /\ (truthy (dict_get o "title" JNull) = false ->
     refuse "no title provided." (insert_games payload rq db))
  /\ (truthy (dict_get o "title" JNull) = true ->
      truthy (dict_get o "release_date" JNull) = false ->
     refuse ("no " ++ dquote ++ "release_date" ++ dquote ++ " provided.")%string
            (insert_games payload rq db)).
Proof.
  intros Hbody Hne refuse.
  assert (Hobj : truthy (JObj o) = true) by (destruct o; [congruence | reflexivity]).
  assert (R : forall text r,
    r = (inl (HTTPException 422 (message text)), db) -> refuse text r).
  { intros text r ->. split; reflexivity. }
  split; [|split; [|split]];
    [intros T1 | intros T1 T2 | intros T1 | intros T1 T2]; apply R.
  - unfold insert_persons. run_view. rewrite Hbody, Hobj. cbn [negb].
    now rewrite T1.
  - unfold insert_persons. run_view. rewrite Hbody, Hobj. cbn [negb].
    now rewrite T1, T2.
  - unfold insert_games. run_view. rewrite Hbody, Hobj. cbn [negb].
    now rewrite T1.
  - unfold insert_games. run_view. rewrite Hbody, Hobj. cbn [negb].
    now rewrite T1, T2.
Qed.

End Creation.

(** ** Equality of Python values *)

Lemma value_nested_ind (P : value -> Prop) :
  P JNull -> (forall b, P (JBool b)) -> (forall n, P (JNum n)) ->
  (forall s, P (JStr s)) ->
  (forall l, Forall P l -> P (JList l)) ->
  (forall o, Forall (fun kv => P (snd kv)) o -> P (JObj o)) ->
  (forall y m d, P (JDate y m d)) ->
  forall v, P v.
Proof.
  intros HNull HBool HNum HStr HList HObj HDate.
  fix IH 1. intros [| b | n | s | l | o | y m d].
  - exact HNull.
  - apply HBool.
  - apply HNum.
  - apply HStr.
  - apply HList. induction l as [|x l IHl]; constructor; [apply IH | exact IHl].
  - apply HObj. induction o as [|[k v] o IHo]; constructor; [apply IH | exact IHo].
  - apply HDate.
Qed.

(** Every value equals itself. *)
Lemma py_eq_refl (v : value) : py_eq v v = true.
Proof.
  induction v as [| b | n | s | l IHl | o IHo | y m d] using value_nested_ind;
    cbn [py_eq].
  - reflexivity.
  - now destruct b.
  - apply Z.eqb_refl.
  - apply String.eqb_refl.
  - induction IHl as [|x l Hx _ IH]; [reflexivity|]. now rewrite Hx, IH.
  - rewrite Nat.eqb_refl. cbn [andb]. apply forallb_forall. intros kv Hin.
    apply existsb_exists. exists kv. split; [exact Hin|].
    rewrite String.eqb_refl. cbn [andb].
    rewrite Forall_forall in IHo. now apply IHo.
  - now rewrite !Z.eqb_refl.
Qed.

(** An attribute that was assigned the value it was loaded with is not
    written. *)
Lemma column_after_same (store : value -> option value) (v : value) :
  column_after store v v = Some v.
Proof. unfold column_after. now rewrite py_eq_refl. Qed.

(** What a column holds after the UPDATE is what it held, or what the engine
    made of the assigned value. *)
Lemma column_after_cases (store : value -> option value) (assigned loaded s : value) :
  column_after store assigned loaded = Some s ->
  (py_eq assigned loaded = true /\ s = loaded)
  \/ (py_eq assigned loaded = false /\ bind_param store assigned = Some s).
Proof.
  unfold column_after. destruct (py_eq assigned loaded); intros E.
  - left. split; [reflexivity | congruence].
  - right. now split.
Qed.

(** ** Rows and updates *)

Section Rows.

Context {A : Type}.

Lemma filter_remove (f g : A -> bool) (l : list A) :
  (forall r, g r = f r) ->
  filter f (filter (fun r => negb (g r)) l) = [].
Proof.
  intros Hfg. induction l as [|a l IH]; [reflexivity|].
  cbn [filter]. rewrite Hfg.
  destruct (f a) eqn:Ha; cbn [negb]; [exact IH|].
  cbn [filter]. now rewrite Ha.
Qed.

Lemma filter_remove_other (f g : A -> bool) (l : list A) :
  (forall r, g r = true -> f r = false) ->
  filter f (filter (fun r => negb (g r)) l) = filter f l.
Proof.
  intros Hgf. induction l as [|a l IH]; [reflexivity|].
  cbn [filter]. destruct (g a) eqn:Ha; cbn [negb].
  - now rewrite IH, (Hgf a Ha).
  - cbn [filter]. now rewrite IH.
Qed.

Lemma filter_twice (f : A -> bool) (l : list A) :
  filter f (filter f l) = filter f l.
Proof.
  induction l as [|a l IH]; [reflexivity|]. cbn [filter].
  destruct (f a) eqn:Ha; [|exact IH]. cbn [filter]. now rewrite Ha, IH.
Qed.

Lemma forallb_filter (P g : A -> bool) (l : list A) :
  forallb P l = true -> forallb P (filter g l) = true.
Proof.
  intros Hl. induction l as [|a l IH]; [reflexivity|].
  cbn [filter forallb] in *. apply andb_true_iff in Hl as [Ha Hl].
  destruct (g a); cbn [forallb]; [rewrite Ha|]; auto.
Qed.

Lemma forallb_selected (P f : A -> bool) (p : A) (l : list A) :
  forallb P l = true -> In p (filter f l) -> P p = true.
Proof.
  intros Hl Hin. apply filter_In in Hin as [Hin _].
  rewrite forallb_forall in Hl. now apply Hl.
Qed.

(** A row placed among others: what a filter, a test of all rows and a
    projection see. *)
Lemma filter_place (f : A -> bool) (k : nat) (x : A) (l : list A) :
  filter f (place k x l)
  = filter f (firstn k l) ++ (if f x then [x] else []) ++ filter f (skipn k l).
Proof.
  unfold place. rewrite filter_app. cbn [filter]. now destruct (f x).
Qed.

Lemma filter_place_out (f : A -> bool) (k : nat) (x : A) (l : list A) :
  f x = false -> filter f (place k x l) = filter f l.
Proof.
  intros Hx. rewrite filter_place, Hx. cbn [app].
  now rewrite <- filter_app, firstn_skipn.
Qed.

Lemma filter_place_in (f : A -> bool) (k : nat) (x : A) (l : list A) :
  f x = true -> filter f l = [] -> filter f (place k x l) = [x].
Proof.
  intros Hx Hl. rewrite filter_place, Hx.
  rewrite <- (firstn_skipn k l), filter_app in Hl.
  apply app_eq_nil in Hl as [-> ->]. reflexivity.
Qed.

Lemma forallb_place (P : A -> bool) (k : nat) (x : A) (l : list A) :
  forallb P (place k x l) = P x && forallb P l.
Proof.
  unfold place. rewrite <- (firstn_skipn k l) at 3.
  rewrite !forallb_app. cbn [forallb].
  destruct (forallb P (firstn k l)), (P x); reflexivity.
Qed.

Lemma map_place {B : Type} (g : A -> B) (k : nat) (x : A) (l : list A) :
  map g (place k x l) = place k (g x) (map g l).
Proof.
  unfold place. rewrite map_app. cbn [map].
  now rewrite firstn_map, skipn_map.
Qed.

End Rows.

Lemma has_id_same_id (n : Z) (i j : option Z) :
  has_id n i = true -> same_id i j = has_id n j.
Proof.
  destruct i as [m|]; [|discriminate]. cbn. intros Hm.
  apply Z.eqb_eq in Hm. now subst m.
Qed.

Lemma has_id_eq (n : Z) (i : option Z) : has_id n i = true -> i = Some n.
Proof.
  destruct i as [m|]; [|discriminate]. cbn. intros E.
  apply Z.eqb_eq in E. now subst.
Qed.

Lemma has_id_other (n m : Z) (i : option Z) :
  m <> n -> has_id n i = true -> has_id m i = false.
Proof.
  intros Hmn Hn. apply has_id_eq in Hn. subst i. cbn. apply Z.eqb_neq. congruence.
Qed.

Lemma selected_person_id (n : Z) (db : DB) (p : Person) (rest : list Person) :
  persons_with_id n db = p :: rest -> has_id n (person_id p) = true.
Proof.
  intros Hsel. assert (Hin : In p (persons_with_id n db)) by (rewrite Hsel; now left).
  unfold persons_with_id in Hin. now apply filter_In in Hin as [_ Hid].
Qed.

Lemma selected_game_id (n : Z) (db : DB) (g : Game) (rest : list Game) :
  games_with_id n db = g :: rest -> has_id n (game_id g) = true.
Proof.
  intros Hsel. assert (Hin : In g (games_with_id n db)) by (rewrite Hsel; now left).
  unfold games_with_id in Hin. now apply filter_In in Hin as [_ Hid].
Qed.

(** *** The table after a row was written *)

Section Written.

Context `{Platform} {A : Type} `{Formattable A} (key : A -> option Z).

(** The query by the key of the written row selects that row alone. *)
Lemma rewrite_row_selected (n : Z) (row : A) (rows : list A) :
  has_id n (key row) = true ->
  filter (fun r => has_id n (key r)) (rewrite_row key row rows) = [row].
Proof.
  intros Hrow. unfold rewrite_row. apply filter_place_in; [exact Hrow|].
  apply filter_remove. intros r. now apply has_id_same_id.
Qed.

(** The query by another key selects what it selected. *)
Lemma rewrite_row_other (n m : Z) (row : A) (rows : list A) :
  has_id n (key row) = true -> m <> n ->
  filter (fun r => has_id m (key r)) (rewrite_row key row rows)
  = filter (fun r => has_id m (key r)) rows.
Proof.
  intros Hrow Hmn. unfold rewrite_row.
  rewrite filter_place_out by now apply has_id_other with (n := n).
  apply filter_remove_other. intros r Hr.
  rewrite (has_id_same_id n) in Hr by exact Hrow.
  now apply has_id_other with (n := n).
Qed.

Lemma forallb_rewrite_row (P : A -> bool) (row : A) (rows : list A) :
  P row = true -> forallb P rows = true ->
  forallb P (rewrite_row key row rows) = true.
Proof.
  intros Hrow Hrows. unfold rewrite_row.
  now rewrite forallb_place, Hrow, forallb_filter.
Qed.

(** Writing the same row again changes nothing. *)
Lemma rewrite_row_twice (n : Z) (row : A) (rows : list A) :
  has_id n (key row) = true ->
  rewrite_row key row (rewrite_row key row rows) = rewrite_row key row rows.
Proof.
  intros Hrow.
  assert (Hself : same_id (key row) (key row) = true).
  { rewrite (has_id_same_id n) by exact Hrow. exact Hrow. }
  unfold rewrite_row at 1.
  assert (E : filter (fun r => negb (same_id (key row) (key r)))
                     (rewrite_row key row rows)
              = filter (fun r => negb (same_id (key row) (key r))) rows).
  { unfold rewrite_row. rewrite filter_place_out by now rewrite Hself.
    apply filter_twice. }
  now rewrite E.
Qed.

End Written.

(** After the deletion of a row with id [n], the query by that id selects
    nothing. *)
Lemma Person_delete_selected (n : Z) (db : DB) (p : Person) :
  has_id n (person_id p) = true -> persons_with_id n (Person_delete p db) = [].
Proof.
  intros Hp. unfold persons_with_id, Person_delete; cbn [persons].
  apply filter_remove. intros r. now apply has_id_same_id.
Qed.

Lemma Game_delete_selected (n : Z) (db : DB) (g : Game) :
  has_id n (game_id g) = true -> games_with_id n (Game_delete g db) = [].
Proof.
  intros Hg. unfold games_with_id, Game_delete; cbn [games].
  apply filter_remove. intros r. now apply has_id_same_id.
Qed.

(** ** PATCH and DELETE *)

Section Updates.

Context `{Platform}.

(** What a committed update returns and leaves: the reloaded object has the
    key it was loaded with and, in each column, what [column_after] gives;
    the database is untouched when no attribute changed, and has the row
    rewritten otherwise. *)
Lemma Person_update_some (loaded self row : Person) (db db' : DB) :
  Person_update loaded self db = Some (row, db') ->
  person_id row = person_id loaded
  /\ column_after store_string (person_name self) (person_name loaded)
     = Some (person_name row)
  /\ column_after store_string (person_gender self) (person_gender loaded)
     = Some (person_gender row)
  /\ column_after store_integer (person_age self) (person_age loaded)
     = Some (person_age row)
  /\ ((row = loaded /\ db' = db)
      \/ db' = {| persons := rewrite_row person_id row (persons db);
                  persons_id_seq := persons_id_seq db;
                  games := games db; games_id_seq := games_id_seq db |}).
Proof.
  unfold Person_update, Person_dirty.
  destruct (column_after store_string (person_name self) (person_name loaded))
    as [name|] eqn:Ename; [|discriminate].
  destruct (column_after store_string (person_gender self) (person_gender loaded))
    as [gender|] eqn:Egender; [|discriminate].
  destruct (column_after store_integer (person_age self) (person_age loaded))
    as [age|] eqn:Eage; [|discriminate].
  unfold column_after in Ename, Egender, Eage.
  destruct (py_eq (person_name self) (person_name loaded));
    destruct (py_eq (person_gender self) (person_gender loaded));
    destruct (py_eq (person_age self) (person_age loaded));
    cbn [andb negb]; intros E; injection E as <- <-; cbn;
    repeat split; try reflexivity; try (now right).
  left. split; [|reflexivity]. destruct loaded; cbn in *. congruence.
Qed.

Lemma Game_update_some (loaded self row : Game) (db db' : DB) :
  Game_update loaded self db = Some (row, db') ->
  game_id row = game_id loaded
  /\ column_after store_string (game_title self) (game_title loaded)
     = Some (game_title row)
  /\ column_after store_date (game_release_date self) (game_release_date loaded)
     = Some (game_release_date row)
  /\ ((row = loaded /\ db' = db)
      \/ db' = {| persons := persons db; persons_id_seq := persons_id_seq db;
                  games := rewrite_row game_id row (games db);
                  games_id_seq := games_id_seq db |}).
Proof.
  unfold Game_update, Game_dirty.
  destruct (column_after store_string (game_title self) (game_title loaded))
    as [title|] eqn:Etitle; [|discriminate].
  destruct (column_after store_date (game_release_date self) (game_release_date loaded))
    as [rd|] eqn:Erd; [|discriminate].
  unfold column_after in Etitle, Erd.
  destruct (py_eq (game_title self) (game_title loaded));
    destruct (py_eq (game_release_date self) (game_release_date loaded));
    cbn [andb negb]; intros E; injection E as <- <-; cbn;
    repeat split; try reflexivity; try (now right).
  left. split; [|reflexivity]. destruct loaded; cbn in *. congruence.
Qed.

(** After the update of the one row with id [n], the query by that id
    selects the reloaded row; the rows under other ids, the other table and
    the sequences are as before. *)
Lemma Person_update_selected (n : Z) (db db' : DB) (p self row : Person) :
  persons_with_id n db = [p] ->
  Person_update p self db = Some (row, db') ->
  persons_with_id n db' = [row]
  /\ (forall m, m <> n -> persons_with_id m db' = persons_with_id m db)
  /\ games db' = games db
  /\ persons_id_seq db' = persons_id_seq db
  /\ games_id_seq db' = games_id_seq db.
Proof.
  intros Hsel Hup. pose proof (selected_person_id _ _ _ _ Hsel) as Hp.
  destruct (Person_update_some _ _ _ _ _ Hup) as (Hid & _ & _ & _ & [[-> ->] | ->]).
  - split; [exact Hsel|]. repeat split.
  - rewrite <- Hid in Hp. unfold persons_with_id; cbn [persons games
      persons_id_seq games_id_seq].
    split; [now apply rewrite_row_selected|].
    split; [|repeat split].
    intros m Hm. now apply rewrite_row_other with (n := n).
Qed.

Lemma Game_update_selected (n : Z) (db db' : DB) (g self row : Game) :
  games_with_id n db = [g] ->
  Game_update g self db = Some (row, db') ->
  games_with_id n db' = [row]
  /\ (forall m, m <> n -> games_with_id m db' = games_with_id m db)
  /\ persons db' = persons db
  /\ persons_id_seq db' = persons_id_seq db
  /\ games_id_seq db' = games_id_seq db.
Proof.
  intros Hsel Hup. pose proof (selected_game_id _ _ _ _ Hsel) as Hg.
  destruct (Game_update_some _ _ _ _ _ Hup) as (Hid & _ & _ & [[-> ->] | ->]).
  - split; [exact Hsel|]. repeat split.
  - rewrite <- Hid in Hg. unfold games_with_id; cbn [persons games
      persons_id_seq games_id_seq].
    split; [now apply rewrite_row_selected|].
    split; [|repeat split].
    intros m Hm. now apply rewrite_row_other with (n := n).
Qed.

(** The PATCH view on a record that exists, with a non-empty dict as body:
    the assigned attributes are those of [patch_person], and the answer
    shows the object as reloaded after the commit. *)
Lemma edit_persons_found (payload : Payload) (i : string) (n : Z)
  (rq : Request) (db : DB) (p : Person) (o : list (string * value)) :
  i <> ""%string -> get_json rq = JObj o -> o <> [] ->
  sql_int i = Some n -> persons_with_id n db = [p] ->
  edit_persons payload i rq db
  = match Person_update p (patch_person p o) db with
    | Some (row, db') =>
        (inr (JObj [("success", JBool true);
                    ("updated", id_value (person_id row));
                    ("person", JList [format row])]), db')
    | None => (inl (PyError "DBAPIError"), db)
    end.
Proof.
  intros Hi Hbody Ho Hn Hsel. unfold edit_persons, Person_query_by_id. run_view.
  apply String.eqb_neq in Hi. rewrite Hi, Hbody, Hn.
  destruct o as [|kv o']; [congruence|]. cbn [truthy negb]. run_view.
  unfold persons_with_id in Hsel. rewrite Hsel. fold (patch_person p (kv :: o')).
  now destruct (Person_update p (patch_person p (kv :: o')) db) as [[row db']|].
Qed.

Lemma edit_games_found (payload : Payload) (i : string) (n : Z)
  (rq : Request) (db : DB) (g : Game) (o : list (string * value)) :
  i <> ""%string -> get_json rq = JObj o -> o <> [] ->
  sql_int i = Some n -> games_with_id n db = [g] ->
  edit_games payload i rq db
  = match Game_update g (patch_game g o) db with
    | Some (row, db') =>
        (inr (JObj [("success", JBool true);
                    ("edited", id_value (game_id row));
                    ("game", JList [format row])]), db')
    | None => (inl (PyError "DBAPIError"), db)
    end.
Proof.
  intros Hi Hbody Ho Hn Hsel. unfold edit_games, Game_query_by_id. run_view.
  apply String.eqb_neq in Hi. rewrite Hi, Hbody, Hn.
  destruct o as [|kv o']; [congruence|]. cbn [truthy negb]. run_view.
  unfold games_with_id in Hsel. rewrite Hsel. fold (patch_game g (kv :: o')).
  now destruct (Game_update g (patch_game g (kv :: o')) db) as [[row db']|].
Qed.

(** Whatever the request, PATCH leaves the database as it was or commits
    the update of the record it found with the patched attributes. *)
Lemma edit_persons_database (payload : Payload) (i : string) (rq : Request) (db : DB) :
  snd (edit_persons payload i rq db) = db
  \/ exists n p o row,
       sql_int i = Some n /\ persons_with_id n db = [p] /\ get_json rq = JObj o
       /\ Person_update p (patch_person p o) db
          = Some (row, snd (edit_persons payload i rq db)).
Proof.
  destruct (String.eqb_spec i "") as [Hi|Hi].
  { left. unfold edit_persons. run_view. subst i. reflexivity. }
  destruct (get_json rq) as [| b | z | s | l | o | y m d] eqn:Hbody.
  7: { left. unfold edit_persons, Person_query_by_id. run_view.
       apply String.eqb_neq in Hi. rewrite Hi, Hbody. cbn [truthy negb].
       destruct (sql_int i); run_view; [|reflexivity].
       now destruct (filter _ (persons db)) as [|p [|p2 rest]]. }
  1-5: left; unfold edit_persons, Person_query_by_id; run_view;
       apply String.eqb_neq in Hi; rewrite Hi, Hbody; cbn [truthy];
       try reflexivity;
       try match goal with |- context [negb ?c] => destruct c; cbn [negb] end;
       try reflexivity;
       destruct (sql_int i); run_view; try reflexivity;
       now destruct (filter _ (persons db)) as [|p [|p2 rest]].
  destruct o as [|kv o'].
  { left. unfold edit_persons. run_view. apply String.eqb_neq in Hi.
    now rewrite Hi, Hbody. }
  destruct (sql_int i) as [n|] eqn:Hn.
  2: { left. unfold edit_persons, Person_query_by_id. run_view.
       apply String.eqb_neq in Hi. now rewrite Hi, Hbody, Hn. }
  destruct (persons_with_id n db) as [|p [|p2 rest]] eqn:Hsel.
  1, 3: left; unfold edit_persons, Person_query_by_id; run_view;
        apply String.eqb_neq in Hi; rewrite Hi, Hbody, Hn; cbn [truthy negb];
        run_view; unfold persons_with_id in Hsel; now rewrite Hsel.
  rewrite (edit_persons_found payload i n rq db p (kv :: o') Hi Hbody
             ltac:(discriminate) Hn Hsel).
  destruct (Person_update p (patch_person p (kv :: o')) db) as [[row db']|] eqn:Hup;
    [|now left].
  right. exists n, p, (kv :: o'), row. repeat split; assumption.
Qed.

Lemma edit_games_database (payload : Payload) (i : string) (rq : Request) (db : DB) :
  snd (edit_games payload i rq db) = db
  \/ exists n g o row,
       sql_int i = Some n /\ games_with_id n db = [g] /\ get_json rq = JObj o
       /\ Game_update g (patch_game g o) db
          = Some (row, snd (edit_games payload i rq db)).
Proof.
  destruct (String.eqb_spec i "") as [Hi|Hi].
  { left. unfold edit_games. run_view. subst i. reflexivity. }
  destruct (get_json rq) as [| b | z | s | l | o | y m d] eqn:Hbody.
  7: { left. unfold edit_games, Game_query_by_id. run_view.
       apply String.eqb_neq in Hi. rewrite Hi, Hbody. cbn [truthy negb].
       destruct (sql_int i); run_view; [|reflexivity].
       now destruct (filter _ (games db)) as [|p [|p2 rest]]. }
  1-5: left; unfold edit_games, Game_query_by_id; run_view;
       apply String.eqb_neq in Hi; rewrite Hi, Hbody; cbn [truthy];
       try reflexivity;
       try match goal with |- context [negb ?c] => destruct c; cbn [negb] end;
       try reflexivity;
       destruct (sql_int i); run_view; try reflexivity;
       now destruct (filter _ (games db)) as [|p [|p2 rest]].
  destruct o as [|kv o'].
  { left. unfold edit_games. run_view. apply String.eqb_neq in Hi.
    now rewrite Hi, Hbody. }
  destruct (sql_int i) as [n|] eqn:Hn.
  2: { left. unfold edit_games, Game_query_by_id. run_view.
       apply String.eqb_neq in Hi. now rewrite Hi, Hbody, Hn. }
  destruct (games_with_id n db) as [|g [|g2 rest]] eqn:Hsel.
  1, 3: left; unfold edit_games, Game_query_by_id; run_view;
        apply String.eqb_neq in Hi; rewrite Hi, Hbody, Hn; cbn [truthy negb];
        run_view; unfold games_with_id in Hsel; now rewrite Hsel.
  rewrite (edit_games_found payload i n rq db g (kv :: o') Hi Hbody
             ltac:(discriminate) Hn Hsel).
  destruct (Game_update g (patch_game g (kv :: o')) db) as [[row db']|] eqn:Hup;
    [|now left].
  right. exists n, g, (kv :: o'), row. repeat split; assumption.
Qed.

End Updates.

Section PartialUpdate.

Context `{Platform}.

Lemma omitted_key_keeps (o : list (string * value)) (key : string) (v : value) :
  omits (JObj o) key = true -> dict_get o key v = v.
Proof.
  unfold omits, dict_get. now destruct (dict_lookup o key).
Qed.

(** C3. A PATCH addressed to a record that exists leaves every field its
    body omits at the stored value: after the call the query by the same id
    selects one record, with the same id, whose omitted fields are those of
    the record before the call.  This holds for every request, also one the
    view refuses. *)
Theorem patch_keeps_omitted_fields
  (payload : Payload) (i : string) (n : Z) (rq : Request) (db : DB) :
  sql_int i = Some n ->
  (forall p, persons_with_id n db = [p] ->
     exists p',
       persons_with_id n (snd (edit_persons payload i rq db)) = [p']
       /\ person_id p' = person_id p
       /\ (omits (get_json rq) "name" = true -> person_name p' = person_name p)
       /\ (omits (get_json rq) "age" = true -> person_age p' = person_age p)
       /\ (omits (get_json rq) "gender" = true -> person_gender p' = person_gender p))
  /\ (forall g, games_with_id n db = [g] ->
     exists g',
       games_with_id n (snd (edit_games payload i rq db)) = [g']
       /\ game_id g' = game_id g
       /\ (omits (get_json rq) "title" = true -> game_title g' = game_title g)
       /\ (omits (get_json rq) "release_date" = true ->
           game_release_date g' = game_release_date g)).
Proof.
  intros Hn. split.
  - intros p Hsel.
    destruct (edit_persons_database payload i rq db)
      as [E | (n' & p0 & o & row & Hn' & Hsel' & Hbody & Hup)].
    + rewrite E. exists p. repeat split; assumption || reflexivity.
    + assert (n' = n) by congruence. subst n'.
      assert (p0 = p) by congruence. subst p0.
      destruct (Person_update_some _ _ _ _ _ Hup)
        as (Hid & Cname & Cgender & Cage & _).
      destruct (Person_update_selected _ _ _ _ _ _ Hsel Hup) as (Hrow & _).
      cbn [patch_person person_name person_gender person_age] in Cname, Cgender, Cage.
      exists row. rewrite Hbody.
      split; [exact Hrow|]. split; [exact Hid|].
      split; [|split]; intros Homit.
      * rewrite (omitted_key_keeps _ _ _ Homit), column_after_same in Cname.
        congruence.
      * rewrite (omitted_key_keeps _ _ _ Homit), column_after_same in Cage.
        congruence.
      * rewrite (omitted_key_keeps _ _ _ Homit), column_after_same in Cgender.
        congruence.
  - intros g Hsel.
    destruct (edit_games_database payload i rq db)
      as [E | (n' & g0 & o & row & Hn' & Hsel' & Hbody & Hup)].
    + rewrite E. exists g. repeat split; assumption || reflexivity.
    + assert (n' = n) by congruence. subst n'.
      assert (g0 = g) by congruence. subst g0.
      destruct (Game_update_some _ _ _ _ _ Hup) as (Hid & Ctitle & Cdate & _).
      destruct (Game_update_selected _ _ _ _ _ _ Hsel Hup) as (Hrow & _).
      cbn [patch_game game_title game_release_date] in Ctitle, Cdate.
      exists row. rewrite Hbody.
      split; [exact Hrow|]. split; [exact Hid|].
      split; intros Homit.
      * rewrite (omitted_key_keeps _ _ _ Homit), column_after_same in Ctitle.
        congruence.
      * rewrite (omitted_key_keeps _ _ _ Homit), column_after_same in Cdate.
        congruence.
Qed.

End PartialUpdate.

(** [test_edit_person]: PATCH /persons/1 with a body that carries the age
    alone. *)
Lemma patch_keeps_omitted_fields_witness :
  let rq := request_with None None (Some (JObj [("age", JNum 30)])) in
  exists p',
    persons_with_id 1
      (snd (edit_persons (H := test_platform) casting_director "1" rq test_db)) = [p']
    /\ person_id p' = Some 1
    /\ (omits (get_json rq) "name" = true -> person_name p' = JStr "Matthew")
    /\ (omits (get_json rq) "age" = true -> person_age p' = JNum 25)
    /\ (omits (get_json rq) "gender" = true -> person_gender p' = JStr "Male").
Proof.
  intros rq.
  apply (proj1 (@patch_keeps_omitted_fields test_platform casting_director
                  "1" 1 rq test_db eq_refl)
           {| person_id := Some 1; person_name := JStr "Matthew";
              person_gender := JStr "Male"; person_age := JNum 25 |}).
  reflexivity.
Defined.

Section Deletion.

Context `{Platform}.

Lemma delete_persons_found (payload : Payload) (i : string) (n : Z)
  (rq : Request) (db : DB) (p : Person) :
  i <> ""%string -> sql_int i = Some n -> persons_with_id n db = [p] ->
  delete_persons payload i rq db
  = (inr (JObj [("success", JBool true); ("deleted", JStr i)]), Person_delete p db).
Proof.
  intros Hi Hn Hsel. unfold delete_persons, Person_query_by_id. run_view.
  apply String.eqb_neq in Hi. rewrite Hi, Hn. run_view.
  unfold persons_with_id in Hsel. now rewrite Hsel.
Qed.

Lemma delete_games_found (payload : Payload) (i : string) (n : Z)
  (rq : Request) (db : DB) (g : Game) :
  i <> ""%string -> sql_int i = Some n -> games_with_id n db = [g] ->
  delete_games payload i rq db
  = (inr (JObj [("success", JBool true); ("deleted", JStr i)]), Game_delete g db).
Proof.
  intros Hi Hn Hsel. unfold delete_games, Game_query_by_id. run_view.
  apply String.eqb_neq in Hi. rewrite Hi, Hn. run_view.
  unfold games_with_id in Hsel. now rewrite Hsel.
Qed.

(** C8. DELETE on an id that exists needs nothing but the id - the request,
    with or without a body, plays no part - removes the record and answers
    [{success: true, deleted: id}], where [id] is the string of the URL
    segment, not the integer key of the record. *)
Theorem delete_echoes_id_string
  (payload : Payload) (i : string) (n : Z) (rq : Request) (db : DB) :
  i <> ""%string ->
  sql_int i = Some n ->
  (forall p, persons_with_id n db = [p] ->
     delete_persons payload i rq db
       = (inr (JObj [("success", JBool true); ("deleted", JStr i)]),
          Person_delete p db)
     /\ persons_with_id n (Person_delete p db) = [])
  /\ (forall g, games_with_id n db = [g] ->
     delete_games payload i rq db
       = (inr (JObj [("success", JBool true); ("deleted", JStr i)]),
          Game_delete g db)
     /\ games_with_id n (Game_delete g db) = []).
Proof.
  intros Hi Hn. split.
  - intros p Hsel. split.
    + now apply delete_persons_found with (n := n).
    + apply Person_delete_selected. now apply selected_person_id in Hsel.
  - intros g Hsel. split.
    + now apply delete_games_found with (n := n).
    + apply Game_delete_selected. now apply selected_game_id in Hsel.
Qed.

End Deletion.

(** [test_delete_person]: DELETE /persons/1 answers with the string "1". *)
Lemma delete_echoes_id_string_witness :
  let rq := request_with None None None in
  let matthew := {| person_id := Some 1; person_name := JStr "Matthew";
                    person_gender := JStr "Male"; person_age := JNum 25 |} in
  delete_persons (H := test_platform) casting_director "1" rq test_db
    = (inr (JObj [("success", JBool true); ("deleted", JStr "1")]),
       Person_delete matthew test_db)
  /\ persons_with_id 1 (Person_delete matthew test_db) = [].
Proof.
  intros rq matthew.
  apply (proj1 (@delete_echoes_id_string test_platform casting_director
                  "1" 1 rq test_db ltac:(discriminate) eq_refl) matthew).
  reflexivity.
Defined.

(** ** Creation: the cases run *)

(** A POST without any body. *)
Lemma post_without_body_is_bad_request_witness :
  let bad := HTTPException 400 (message "request does not contain a valid JSON body.") in
  insert_persons (H := test_platform) (request_with None None None) test_db
    = (inl bad, test_db)
  /\ insert_games (H := test_platform) executive_producer
       (request_with None None None) test_db
     = (inl bad, test_db)
  /\ respond (inl bad)
     = {| status := 400;
          data := Some (error_envelope 400
                    (JStr "request does not contain a valid JSON body.")) |}.
Proof.
  apply (@post_without_body_is_bad_request test_platform
           (request_with None None None) test_db executive_producer).
  reflexivity.
Defined.

(** [test_create_new_person]: the body [{name: Crisso, age: 25}] creates
    person 2 of the test database, with the gender "Other". *)
Lemma insert_persons_defaults_gender_witness :
  let rq := request_with None None
              (Some (JObj [("name", JStr "Crisso"); ("age", JNum 25)])) in
  let db' := snd (insert_persons (H := test_platform) rq test_db) in
  let created := {| person_id := Some 2; person_name := JStr "Crisso";
                    person_gender := JStr "Other"; person_age := JNum 25 |} in
  fst (insert_persons (H := test_platform) rq test_db)
    = inr (JObj [("success", JBool true); ("created", JNum 2)])
  /\ respond (fst (insert_persons (H := test_platform) rq test_db))
    = {| status := 200;
         data := Some (JObj [("success", JBool true); ("created", JNum 2)]) |}
  /\ persons db'
     = place (scan_slot (Platform := test_platform)
                (map format (persons test_db)) (format created))
             created (persons test_db)
  /\ persons_id_seq db' = 2
  /\ games db' = games test_db.
Proof.
  intros rq db' created.
  apply (proj1 (@insert_persons_defaults_gender test_platform rq test_db
                  [("name", JStr "Crisso"); ("age", JNum 25)]
                  (JStr "Crisso") (JNum 25)
                  eq_refl eq_refl eq_refl eq_refl eq_refl eq_refl)
           (JStr "Crisso") (JStr "Other") (JNum 25));
    reflexivity.
Defined.

(** C7 fails on an age the [Integer] column cannot hold: the body carries a
    name and an age, both pass the presence test, there is no gender - and
    the commit raises, the answer is a bare 500 and no person is created. *)
Lemma post_age_out_of_range_is_refused :
  let o := [("name", JStr "Crisso"); ("age", JNum 2147483648)] in
  let rq := request_with None None (Some (JObj o)) in
  get_json rq = JObj o
  /\ dict_lookup o "name" = Some (JStr "Crisso")
  /\ dict_lookup o "age" = Some (JNum 2147483648)
  /\ dict_lookup o "gender" = None
  /\ truthy (JStr "Crisso") = true
  /\ truthy (JNum 2147483648) = true
  /\ insert_persons (H := test_platform) rq test_db
     = (inl (PyError "DBAPIError"), test_db)
  /\ respond (fst (insert_persons (H := test_platform) rq test_db))
     = {| status := 500; data := None |}
  /\ status (respond (fst (insert_persons (H := test_platform) rq test_db))) <> 200
  /\ persons (snd (insert_persons (H := test_platform) rq test_db)) = persons test_db.
Proof.
  cbv zeta. repeat split. discriminate.
Qed.

(** C6 fails on the empty JSON object: it is a JSON body, it lacks the
    name, and the answer is 400 with the message about the body, not 422
    with the message about the name. *)
Lemma post_empty_object_is_bad_request :
  let rq := request_with None None (Some (JObj [])) in
  get_json rq = JObj []
  /\ dict_lookup [] "name" = None
  /\ respond (fst (insert_persons (H := test_platform) rq test_db))
     = {| status := 400;
          data := Some (error_envelope 400
                    (JStr "request does not contain a valid JSON body.")) |}
  /\ status (respond (fst (insert_persons (H := test_platform) rq test_db))) <> 422.
Proof.
  cbv zeta. repeat split. discriminate.
Qed.

(** [test_error_422_create_new_person] and [test_error_422_create_new_game]:
    a body with the age alone, a body with the release date alone. *)
Lemma post_missing_field_is_unprocessable_witness :
  let rq := request_with None None (Some (JObj [("age", JNum 25)])) in
  insert_persons (H := test_platform) rq test_db
    = (inl (HTTPException 422 (message "no name provided.")), test_db)
  /\ respond (fst (insert_persons (H := test_platform) rq test_db))
     = {| status := 422;
          data := Some (error_envelope 422 (JStr "no name provided.")) |}.
Proof.
  intros rq.
  apply (proj1 (@post_missing_field_is_unprocessable test_platform rq test_db
                  executive_producer
                  [("age", JNum 25)] eq_refl ltac:(discriminate))).
  reflexivity.
Defined.

(** ** What each view can do to the database *)

Section Databases.

Context `{Platform}.

Lemma get_persons_database (rq : Request) (db : DB) :
  snd (get_persons rq db) = db.
Proof.
  unfold get_persons. run_view.
  now destruct (len (paginate_results rq (persons db)) =? 0).
Qed.

Lemma get_games_database (payload : Payload) (rq : Request) (db : DB) :
  snd (get_games payload rq db) = db.
Proof.
  unfold get_games. run_view.
  now destruct (len (paginate_results rq (games db)) =? 0).
Qed.

(** What a committed insert returns and leaves: the reloaded object has
    the next key and, in each column, what the engine made of the bound
    attribute; the table has it where the scan puts it. *)
Lemma Person_insert_some (self row : Person) (db db' : DB) :
  Person_insert self db = Some (row, db') ->
  person_id row = Some (persons_id_seq db + 1)
  /\ bind_param store_string (person_name self) = Some (person_name row)
  /\ bind_param store_string (person_gender self) = Some (person_gender row)
  /\ bind_param store_integer (person_age self) = Some (person_age row)
  /\ db' = {| persons := place (scan_slot (map format (persons db)) (format row))
                               row (persons db);
              persons_id_seq := persons_id_seq db + 1;
              games := games db; games_id_seq := games_id_seq db |}.
Proof.
  unfold Person_insert.
  destruct (bind_param store_string (person_name self)) as [name|]; [|discriminate].
  destruct (bind_param store_string (person_gender self)) as [gender|]; [|discriminate].
  destruct (bind_param store_integer (person_age self)) as [age|]; [|discriminate].
  intros E. injection E as <- <-. repeat split.
Qed.

Lemma Game_insert_some (self row : Game) (db db' : DB) :
  Game_insert self db = Some (row, db') ->
  game_id row = Some (games_id_seq db + 1)
  /\ bind_param store_string (game_title self) = Some (game_title row)
  /\ bind_param store_date (game_release_date self) = Some (game_release_date row)
  /\ db' = {| persons := persons db; persons_id_seq := persons_id_seq db;
              games := place (scan_slot (map format (games db)) (format row))
                             row (games db);
              games_id_seq := games_id_seq db + 1 |}.
Proof.
  unfold Game_insert.
  destruct (bind_param store_string (game_title self)) as [title|]; [|discriminate].
  destruct (bind_param store_date (game_release_date self)) as [rd|]; [|discriminate].
  intros E. injection E as <- <-. repeat split.
Qed.

(** POST stores nothing, or commits the insert of one record whose name
    passed the presence test. *)
Lemma insert_persons_database (rq : Request) (db : DB) :
  snd (insert_persons rq db) = db
  \/ exists name gender age row,
       truthy name = true
       /\ Person_insert (Person_init name gender age) db
          = Some (row, snd (insert_persons rq db)).
Proof.
  unfold insert_persons. run_view.
  destruct (get_json rq) as [| b | z | s | l | o | y m d];
    cbn [truthy]; try (now left);
    try match goal with |- context [negb ?c] => destruct c; cbn [negb] end;
    try (now left).
  destruct o as [|kv o']; cbn [negb]; [now left|].
  destruct (truthy (dict_get (kv :: o') "name" JNull)) eqn:Tname;
    cbn [negb]; [|now left].
  destruct (truthy (dict_get (kv :: o') "age" JNull)) eqn:Tage;
    cbn [negb]; [|now left].
  destruct (Person_insert (Person_init (dict_get (kv :: o') "name" JNull)
              (dict_get (kv :: o') "gender" (JStr "Other"))
              (dict_get (kv :: o') "age" JNull)) db) as [[row db']|] eqn:Hin;
    [|now left].
  right. eexists _, _, _, row. split; [exact Tname | exact Hin].
Qed.

Lemma insert_games_database (payload : Payload) (rq : Request) (db : DB) :
  snd (insert_games payload rq db) = db
  \/ exists title release_date row,
       truthy title = true
       /\ Game_insert (Game_init title release_date) db
          = Some (row, snd (insert_games payload rq db)).
Proof.
  unfold insert_games. run_view.
  destruct (get_json rq) as [| b | z | s | l | o | y m d];
    cbn [truthy]; try (now left);
    try match goal with |- context [negb ?c] => destruct c; cbn [negb] end;
    try (now left).
  destruct o as [|kv o']; cbn [negb]; [now left|].
  destruct (truthy (dict_get (kv :: o') "title" JNull)) eqn:Ttitle;
    cbn [negb]; [|now left].
  destruct (truthy (dict_get (kv :: o') "release_date" JNull)) eqn:Tdate;
    cbn [negb]; [|now left].
  destruct (Game_insert (Game_init (dict_get (kv :: o') "title" JNull)
              (dict_get (kv :: o') "release_date" JNull)) db)
    as [[row db']|] eqn:Hin; [|now left].
  right. eexists _, _, row. split; [exact Ttitle | exact Hin].
Qed.

Lemma delete_persons_database (payload : Payload) (i : string) (rq : Request) (db : DB) :
  snd (delete_persons payload i rq db) = db
  \/ exists p, snd (delete_persons payload i rq db) = Person_delete p db.
Proof.
  unfold delete_persons, Person_query_by_id. run_view.
  destruct (i =? "")%string; [now left|].
  destruct (sql_int i) as [n|]; run_view; [|now left].
  destruct (filter _ (persons db)) as [|p [|p2 rest]]; try (now left).
  right. now exists p.
Qed.

Lemma delete_games_database (payload : Payload) (i : string) (rq : Request) (db : DB) :
  snd (delete_games payload i rq db) = db
  \/ exists g, snd (delete_games payload i rq db) = Game_delete g db.
Proof.
  unfold delete_games, Game_query_by_id. run_view.
  destruct (i =? "")%string; [now left|].
  destruct (sql_int i) as [n|]; run_view; [|now left].
  destruct (filter _ (games db)) as [|g [|g2 rest]]; try (now left).
  right. now exists g.
Qed.

(** A value that tests true is not [None]: it is the engine's to store. *)
Lemma bind_param_truthy (store : value -> option value) (v : value) :
  truthy v = true -> bind_param store v = store v.
Proof. destruct v; try reflexivity. discriminate. Qed.

Lemma stored_name_nonempty (v s : value) :
  keeps_names -> truthy v = true -> bind_param store_string v = Some s ->
  nonempty_string s = true.
Proof.
  intros Hkeeps T E. rewrite bind_param_truthy in E by exact T.
  now apply Hkeeps with (v := v).
Qed.

(** The name column after a PATCH whose body omits the name or supplies one
    that tests true. *)
Lemma patched_name_nonempty (o : list (string * value)) (key : string)
  (loaded s : value) :
  keeps_names -> nonempty_string loaded = true ->
  supplies_nothing_false (JObj o) key = true ->
  column_after store_string (dict_get o key loaded) loaded = Some s ->
  nonempty_string s = true.
Proof.
  intros Hkeeps Hloaded Hbody Hcol.
  destruct (column_after_cases _ _ _ _ Hcol) as [[_ ->] | [Hne Hstore]];
    [exact Hloaded|].
  unfold supplies_nothing_false in Hbody. unfold dict_get in Hne, Hstore.
  destruct (dict_lookup o key) as [v|].
  - now apply stored_name_nonempty with (v := v).
  - now rewrite py_eq_refl in Hne.
Qed.

(** One operation that is not a PATCH with a name or title that tests false
    keeps every stored name and title a non-empty string. *)
Lemma perform_keeps_names (op : Operation) (db : DB) :
  keeps_names ->
  names_nonempty db = true -> names_pass_test op = true ->
  names_nonempty (snd (perform op db)) = true.
Proof.
  intros Hkeeps Hdb Hop. pose proof Hdb as Hdb0.
  unfold names_nonempty in Hdb. apply andb_true_iff in Hdb as [HP HG].
  destruct op as [rq | rq | payload i rq | payload i rq
                 | payload rq | payload rq | payload i rq | payload i rq];
    cbn [perform names_pass_test] in *.
  - now rewrite get_persons_database.
  - destruct (insert_persons_database rq db)
      as [E | (name & gender & age & row & T & Hin)]; [now rewrite E|].
    destruct (Person_insert_some _ _ _ _ Hin) as (_ & Sname & _ & _ & ->).
    unfold names_nonempty; cbn [persons games].
    rewrite forallb_place, HP, HG, !andb_true_r.
    now apply stored_name_nonempty with (v := name).
  - destruct (edit_persons_database payload i rq db)
      as [E | (n & p & o & row & Hn & Hsel & Hbody & Hup)]; [now rewrite E|].
    destruct (Person_update_some _ _ _ _ _ Hup)
      as (_ & Cname & _ & _ & [[_ ->] | ->]); [exact Hdb0|].
    unfold names_nonempty; cbn [persons games]. rewrite HG, andb_true_r.
    apply forallb_rewrite_row; [|exact HP].
    rewrite Hbody in Hop. cbn [patch_person person_name] in Cname.
    apply (patched_name_nonempty o "name" (person_name p)); try assumption.
    apply (forallb_selected _ (fun r => has_id n (person_id r)) p (persons db) HP).
    unfold persons_with_id in Hsel. rewrite Hsel. now left.
  - destruct (delete_persons_database payload i rq db) as [E | (p & E)];
      rewrite E; [assumption|].
    unfold names_nonempty, Person_delete; cbn [persons games].
    rewrite HG, andb_true_r. now apply forallb_filter.
  - now rewrite get_games_database.
  - destruct (insert_games_database payload rq db)
      as [E | (title & rd & row & T & Hin)]; [now rewrite E|].
    destruct (Game_insert_some _ _ _ _ Hin) as (_ & Stitle & _ & ->).
    unfold names_nonempty; cbn [persons games].
    rewrite forallb_place, HP, HG, !andb_true_r.
    now apply stored_name_nonempty with (v := title).
  - destruct (edit_games_database payload i rq db)
      as [E | (n & g & o & row & Hn & Hsel & Hbody & Hup)]; [now rewrite E|].
    destruct (Game_update_some _ _ _ _ _ Hup)
      as (_ & Ctitle & _ & [[_ ->] | ->]); [exact Hdb0|].
    unfold names_nonempty; cbn [persons games]. rewrite HP. cbn [andb].
    apply forallb_rewrite_row; [|exact HG].
    rewrite Hbody in Hop. cbn [patch_game game_title] in Ctitle.
    apply (patched_name_nonempty o "title" (game_title g)); try assumption.
    apply (forallb_selected _ (fun r => has_id n (game_id r)) g (games db) HG).
    unfold games_with_id in Hsel. rewrite Hsel. now left.
  - destruct (delete_games_database payload i rq db) as [E | (g & E)];
      rewrite E; [assumption|].
    unfold names_nonempty, Game_delete; cbn [persons games].
    rewrite HP. cbn [andb]. now apply forallb_filter.
Qed.

Lemma nonempty_string_inv (v : value) :
  nonempty_string v = true -> exists s, v = JStr s /\ s <> ""%string.
Proof.
  destruct v as [| b | n | s | l | o | y m d]; try discriminate.
  cbn. intros Hs. exists s. split; [reflexivity|].
  apply String.eqb_neq. now apply negb_true_iff.
Qed.

(** The amended C4. Where the engine holds a value that tests true, bound to
    a [String] column, as a non-empty string (or refuses it): from a
    database whose names and titles are all non-empty strings, any sequence
    of the views - GET, POST, DELETE, and PATCH with a body that omits the
    name (the title) or supplies one that tests true - leads to a database
    whose names and titles are all non-empty strings. *)
Theorem names_stay_nonempty (ops : list Operation) (db : DB) :
  keeps_names ->
  names_nonempty db = true ->
  forallb names_pass_test ops = true ->
  names_nonempty (perform_all ops db) = true
  /\ (forall r, In r (persons (perform_all ops db)) ->
      exists s, person_name r = JStr s /\ s <> ""%string)
  /\ (forall g, In g (games (perform_all ops db)) ->
      exists s, game_title g = JStr s /\ s <> ""%string).
Proof.
  intros Hkeeps Hdb Hops.
  assert (Hall : names_nonempty (perform_all ops db) = true).
  { revert db Hdb. induction ops as [|op ops IH]; intros db Hdb; [exact Hdb|].
    cbn [forallb] in Hops. apply andb_true_iff in Hops as [Hop Hops].
    cbn [perform_all]. apply IH; [assumption|].
    now apply perform_keeps_names. }
  split; [exact Hall|].
  unfold names_nonempty in Hall. apply andb_true_iff in Hall as [HP HG].
  rewrite forallb_forall in HP, HG.
  split; intros r Hin; apply nonempty_string_inv; auto.
Qed.

End Databases.

(** The engine of the test platform keeps names. *)
Lemma numeral_nonempty (n : Z) : negb (numeral n =? "")%string = true.
Proof.
  unfold numeral. destruct n as [|p|p]; cbn; [reflexivity| |reflexivity].
  unfold NilZero.string_of_uint. now destruct (Pos.to_uint p).
Qed.

Lemma test_platform_keeps_names : keeps_names (H := test_platform).
Proof.
  intros v s T E. destruct v as [| b | n | t | l | o | y m d];
    cbn in E; try discriminate; injection E as <-; cbn [nonempty_string].
  - now destruct b.
  - apply numeral_nonempty.
  - exact T.
Qed.

(** A POST, a PATCH that renames person 1 and sets the age, and a DELETE on
    the test database. *)
Lemma names_stay_nonempty_witness :
  let ops :=
    [OpInsertPersons (request_with None None
        (Some (JObj [("name", JStr "Crisso"); ("age", JNum 25)])));
     OpEditPersons casting_director "1"
        (request_with None None
           (Some (JObj [("name", JStr "Matt"); ("age", JNum 30)])));
     OpDeleteGames executive_producer "1" (request_with None None None)] in
  names_nonempty (perform_all (H := test_platform) ops test_db) = true
  /\ (forall r, In r (persons (perform_all (H := test_platform) ops test_db)) ->
      exists s, person_name r = JStr s /\ s <> ""%string)
  /\ (forall g, In g (games (perform_all (H := test_platform) ops test_db)) ->
      exists s, game_title g = JStr s /\ s <> ""%string).
Proof.
  intros ops.
  apply (@names_stay_nonempty test_platform ops test_db).
  - exact test_platform_keeps_names.
  - reflexivity.
  - reflexivity.
Defined.

(** C4 fails: a PATCH with the body [{name: ""}] on person 1 of the test
    database, all of whose names are non-empty strings, is accepted (200)
    and stores the empty string as the name. *)
Lemma patch_stores_empty_name :
  let rq := request_with None None (Some (JObj [("name", JStr "")])) in
  let db' := perform_all (H := test_platform)
               [OpEditPersons casting_director "1" rq] test_db in
  names_nonempty test_db = true
  /\ status (respond (fst (edit_persons (H := test_platform)
                             casting_director "1" rq test_db))) = 200
  /\ map person_name (persons db') = [JStr ""]
  /\ names_nonempty db' = false.
Proof.
  cbv zeta. repeat split.
Qed.

(** ** The authorization gate in front of the views *)

Section GateProperties.

Context `{Platform}.

(** The gate reads the request and never writes. *)
Lemma gate_database (permission : string) (rq : Request) (db : DB) :
  snd (gate permission rq db) = db.
Proof.
  unfold gate, get_token_auth_header, verify, check_permissions, auth_error.
  run_view.
  destruct (authorization rq) as [header|]; [|reflexivity].
  destruct (split_on " " header) as [|scheme rest]; [reflexivity|].
  destruct (negb (scheme =? "Bearer")%string); [reflexivity|].
  destruct rest as [|token [|x rest]]; try reflexivity.
  destruct (verify_decode_jwt token) as [a|payload]; [reflexivity|].
  destruct (permissions payload) as [claimed|]; [|reflexivity].
  now destruct (existsb (String.eqb permission) claimed).
Qed.

(** Every failure of the gate is an [AuthError]. *)
Lemma gate_failure_is_auth_error (permission : string) (rq : Request) (db : DB) (e : Exn) :
  fst (gate permission rq db) = inl e -> exists a, e = AuthException a.
Proof.
  unfold gate, get_token_auth_header, verify, check_permissions, auth_error.
  run_view.
  destruct (authorization rq) as [header|];
    [|intros E; injection E as <-; eauto].
  destruct (split_on " " header) as [|scheme rest];
    [intros E; injection E as <-; eauto|].
  destruct (negb (scheme =? "Bearer")%string);
    [intros E; injection E as <-; eauto|].
  destruct rest as [|token [|x rest]];
    try (intros E; injection E as <-; eauto).
  destruct (verify_decode_jwt token) as [a|payload];
    [intros E; injection E as <-; eauto|].
  destruct (permissions payload) as [claimed|];
    [|intros E; injection E as <-; eauto].
  destruct (existsb (String.eqb permission) claimed);
    [discriminate | intros E; injection E as <-; eauto].
Qed.

Lemma dispatch_is_requires_auth (ep : Endpoint) :
  dispatch_request ep
  = requires_auth (permission_of ep) (snd (fst (route ep))) [] (snd (route ep)).
Proof. now destruct ep. Qed.

(** C9. When the gate fails, with whatever failure, the decorated function
    is not called: the wrapper raises the gate's [AuthError] for every
    function it could wrap, so neither validation nor persistence code
    runs; every endpoint answers through the [AuthError] handler and the
    database is the one before the request. *)
Theorem failed_gate_never_enters_view
  (permission : string) (rq : Request) (db : DB) (e : Exn) :
  fst (gate permission rq db) = inl e ->
  (exists a, e = AuthException a
             /\ handle_exception e = authentification_failed a)
  /\ (forall f args_ kwargs,
        requires_auth permission f args_ kwargs rq db = (inl e, db))
  /\ (forall ep, permission_of ep = permission ->
        full_dispatch_request ep rq db = (handle_exception e, db)).
Proof.
  intros Hfail.
  assert (Hgate : gate permission rq db = (inl e, db)).
  { pose proof (gate_database permission rq db) as Hdb.
    destruct (gate permission rq db) as [r db1]. cbn in *. now subst. }
  assert (Hwrap : forall f args_ kwargs,
            requires_auth permission f args_ kwargs rq db = (inl e, db)).
  { intros f args_ kwargs. unfold requires_auth, bind. now rewrite Hgate. }
  split; [|split].
  - destruct (gate_failure_is_auth_error _ _ _ _ Hfail) as [a ->]. now exists a.
  - exact Hwrap.
  - intros ep Hperm. unfold full_dispatch_request.
    rewrite dispatch_is_requires_auth, Hperm, Hwrap. reflexivity.
Qed.

(** Once the gate has passed, the wrapper calls the decorated function with
    the payload as first positional argument. *)
Lemma passed_gate_calls_view
  (permission : string) (f : ViewFunction) (args_ : list PyObj)
  (kwargs : list (string * PyObj)) (rq : Request) (db : DB) (payload : Payload) :
  fst (gate permission rq db) = inr payload ->
  requires_auth permission f args_ kwargs rq db
  = call f (OPayload payload :: args_) kwargs rq db.
Proof.
  intros Hpass. pose proof (gate_database permission rq db) as Hdb.
  unfold requires_auth, bind.
  destruct (gate permission rq db) as [r db1]. cbn in *. now subst.
Qed.

(** What each endpoint does after the gate: the six views that declare the
    [payload] parameter run with it; [get_persons] and [insert_persons]
    declare no parameter, and the call with the payload raises [TypeError]
    before their body starts. *)
Lemma dispatch_after_gate (ep : Endpoint) (rq : Request) (db : DB) (payload : Payload) :
  fst (gate (permission_of ep) rq db) = inr payload ->
  dispatch_request ep rq db
  = match ep with
    | GET_persons | POST_persons => (inl (PyError "TypeError"), db)
    | PATCH_persons i => edit_persons payload i rq db
    | DELETE_persons i => delete_persons payload i rq db
    | GET_games => get_games payload rq db
    | POST_games => insert_games payload rq db
    | PATCH_games i => edit_games payload i rq db
    | DELETE_games i => delete_games payload i rq db
    end.
Proof.
  intros Hpass. rewrite dispatch_is_requires_auth.
  rewrite (passed_gate_calls_view _ _ _ _ _ _ _ Hpass).
  destruct ep; reflexivity.
Qed.

End GateProperties.

(** [test_error_403_delete_person]: the assistant's token lacks
    [delete:persons]; the answer is 403 and person 1 is still there. *)
Lemma failed_gate_never_enters_view_witness :
  full_dispatch_request (H := test_platform) (DELETE_persons "1")
    (request_with (Some "Bearer assistant-token") None None) test_db
  = ({| status := 403;
        data := Some (error_envelope 403 (JStr "Permission not found.")) |},
     test_db).
Proof.
  apply (proj2 (proj2 (@failed_gate_never_enters_view test_platform
           "delete:persons"
           (request_with (Some "Bearer assistant-token") None None) test_db
           (AuthException {| failure := PermissionNotFound;
                             description := "Permission not found.";
                             status_code := 403 |})
           eq_refl)) (DELETE_persons "1")).
  reflexivity.
Defined.

(** C1 at the requests of [test_get_all_persons] and
    [test_create_new_person].  The token is valid and carries the required
    permission, the gate passes and hands the payload to the decorated
    function as an argument - and [get_persons] and [insert_persons], whose
    [def] has no parameter, do not run: the answer is 500 and no person is
    created.  The same request on /games, whose view declares [payload],
    is answered 200. *)
Theorem persons_views_refuse_payload :
  let get_rq := request_with (Some "Bearer assistant-token") (Some "1") None in
  let post_rq := request_with (Some "Bearer director-token") None
                   (Some (JObj [("name", JStr "Crisso"); ("age", JNum 25)])) in
  fst (gate (H := test_platform) "read:persons" get_rq test_db) = inr casting_assistant
  /\ fst (gate (H := test_platform) "create:persons" post_rq test_db) = inr casting_director
  /\ full_dispatch_request (H := test_platform) GET_persons get_rq test_db
     = ({| status := 500; data := None |}, test_db)
  /\ full_dispatch_request (H := test_platform) POST_persons post_rq test_db
     = ({| status := 500; data := None |}, test_db)
  /\ status (fst (full_dispatch_request (H := test_platform) GET_games get_rq test_db))
     = 200.
Proof.
  cbv zeta. repeat split.
Qed.

(** * Further properties *)

(** ** Pagination at the edges *)

Section SliceEdges.

Context {A : Type}.

Lemma slice_from_lower (l : list A) : forall i0 lo lo' hi,
  lo <= i0 -> lo' <= i0 -> slice_from i0 lo hi l = slice_from i0 lo' hi l.
Proof.
  induction l as [|x l IH]; intros i0 lo lo' hi Hlo Hlo'; [reflexivity|].
  cbn [slice_from].
  replace (lo <=? i0) with true by (symmetry; apply Z.leb_le; lia).
  replace (lo' <=? i0) with true by (symmetry; apply Z.leb_le; lia).
  rewrite (IH (i0 + 1) lo lo' hi) by lia. reflexivity.
Qed.

Lemma slice_from_empty_range (l : list A) : forall i0 lo hi,
  hi <= lo -> slice_from i0 lo hi l = [].
Proof.
  induction l as [|x l IH]; intros i0 lo hi Hr; [reflexivity|].
  cbn [slice_from]. rewrite IH by assumption.
  destruct (lo <=? i0) eqn:E1; [|reflexivity].
  apply Z.leb_le in E1.
  replace (i0 <? hi) with false by (symmetry; apply Z.ltb_ge; lia).
  reflexivity.
Qed.

(** Negative bounds of the mathematical slice select what the bounds
    moved up to 0 select. *)
Lemma spec_slice_clamp (l : list A) (lo hi : Z) :
  spec_slice l lo hi = spec_slice l (Z.max 0 lo) (Z.max 0 hi).
Proof.
  unfold spec_slice. destruct (Z_lt_ge_dec hi 0) as [Hneg|Hpos].
  - rewrite !slice_from_past by lia. reflexivity.
  - replace (Z.max 0 hi) with hi by lia.
    destruct (Z_le_gt_dec lo 0) as [Hlo|Hlo].
    + apply slice_from_lower; lia.
    + now replace (Z.max 0 lo) with lo by lia.
Qed.

Lemma spec_slice_general (l : list A) (lo hi : Z) :
  spec_slice l lo hi
  = firstn (Z.to_nat (Z.max 0 hi - Z.max 0 lo)) (skipn (Z.to_nat (Z.max 0 lo)) l).
Proof.
  rewrite spec_slice_clamp.
  destruct (Z_le_gt_dec (Z.max 0 lo) (Z.max 0 hi)) as [Hle|Hgt].
  - apply spec_slice_firstn_skipn. lia.
  - unfold spec_slice. rewrite slice_from_empty_range by lia.
    replace (Z.to_nat (Z.max 0 hi - Z.max 0 lo)) with 0%nat by lia.
    reflexivity.
Qed.

(** Two negative bounds count from the end of the list. *)
Lemma py_slice_from_end (l : list A) (lo hi : Z) :
  lo < 0 -> hi < 0 ->
  py_slice l lo hi = spec_slice l (len l + lo) (len l + hi).
Proof.
  intros Hlo Hhi. rewrite spec_slice_general.
  unfold py_slice, slice_index, len.
  replace (lo <? 0) with true by (symmetry; apply Z.ltb_lt; lia).
  replace (hi <? 0) with true by (symmetry; apply Z.ltb_lt; lia).
  now rewrite (Z.add_comm lo), (Z.add_comm hi).
Qed.

Lemma firstn_plus (l : list A) : forall a b : nat,
  firstn (a + b) l = firstn a l ++ firstn b (skipn a l).
Proof.
  induction l as [|x l IH]; intros a b.
  - now rewrite skipn_nil, !firstn_nil.
  - destruct a as [|a]; [reflexivity|].
    cbn [Nat.add firstn skipn app]. now rewrite IH.
Qed.

End SliceEdges.

Section PaginationEdges.

Context `{Platform}.

(** The slice of a page [p >= 1] as drop-and-take. *)
Lemma page_firstn_skipn {A : Type} `{Formattable A} (rq : Request) (C : list A) (p : Z) :
  0 <= ROWS_PER_PAGE -> asks_page rq p -> 1 <= p ->
  paginate_results rq C
  = firstn (Z.to_nat ROWS_PER_PAGE)
           (skipn (Z.to_nat ((p - 1) * ROWS_PER_PAGE)) (map format C)).
Proof.
  intros HN Hp Hp1. unfold paginate_results. rewrite Hp.
  assert (Hb : 0 <= (p - 1) * ROWS_PER_PAGE <= (p - 1) * ROWS_PER_PAGE + ROWS_PER_PAGE)
    by nia.
  rewrite py_slice_spec_slice, spec_slice_firstn_skipn by exact Hb.
  f_equal. f_equal. lia.
Qed.

(** X1. A request without a [page] parameter, or with one that does not
    convert to an integer, is served the first page: the first
    [ROWS_PER_PAGE] formatted records. *)
Theorem default_page_is_first_page {A : Type} `{Formattable A}
  (rq : Request) (C : list A) :
  0 <= ROWS_PER_PAGE ->
  (multidict_get (args rq) "page" = None
   \/ exists s, multidict_get (args rq) "page" = Some s /\ py_int s = None) ->
  paginate_results rq C = firstn (Z.to_nat ROWS_PER_PAGE) (map format C).
Proof.
  intros HN Hpage.
  assert (Hp : asks_page rq 1).
  { unfold asks_page, args_get_int.
    destruct Hpage as [-> | (s & -> & ->)]; reflexivity. }
  rewrite (page_firstn_skipn rq C 1 HN Hp) by lia.
  replace (Z.to_nat ((1 - 1) * ROWS_PER_PAGE)) with 0%nat by lia.
  reflexivity.
Qed.

(** X2. Page 0 is empty whatever the collection and the page size, so
    both list views answer it with 404. *)
Theorem page_zero_is_not_found (rq : Request) (db : DB) (payload : Payload) :
  asks_page rq 0 ->
  (forall (A : Type) (F : Formattable A) (C : list A), paginate_results rq C = [])
  /\ status (respond (fst (get_persons rq db))) = 404
  /\ status (respond (fst (get_games payload rq db))) = 404.
Proof.
  intros Hp.
  assert (Hempty : forall (A : Type) (F : Formattable A) (C : list A),
            paginate_results rq C = []).
  { intros A F C. unfold paginate_results. rewrite Hp.
    unfold py_slice, slice_index.
    replace ((0 - 1) * ROWS_PER_PAGE + ROWS_PER_PAGE) with 0 by ring.
    cbn [Z.ltb Z.compare].
    match goal with |- firstn (Z.to_nat ?d) _ = [] =>
      replace (Z.to_nat d) with 0%nat; [reflexivity|] end.
    destruct ((0 - 1) * ROWS_PER_PAGE <? 0) eqn:E;
      [apply Z.ltb_lt in E | apply Z.ltb_ge in E]; lia. }
  split; [exact Hempty|]. split.
  - unfold get_persons. run_view. now rewrite Hempty.
  - unfold get_games. run_view. now rewrite Hempty.
Qed.

End PaginationEdges.

(** No page parameter, a page parameter that is no number, and page 0. *)
Lemma default_page_is_first_page_witness :
  paginate_results (H := test_platform) (request_with None (Some "two") None) (roster 12)
  = firstn (Z.to_nat 10) (map format (roster 12)).
Proof.
  apply (@default_page_is_first_page test_platform Person _
           (request_with None (Some "two") None) (roster 12)).
  - vm_compute. discriminate.
  - right. exists "two". split; reflexivity.
Defined.

Lemma page_zero_is_not_found_witness :
  (forall (A : Type) (F : Formattable A) (C : list A),
     paginate_results (H := test_platform) (request_with None (Some "0") None) C = [])
  /\ status (respond (fst (get_persons (H := test_platform)
                             (request_with None (Some "0") None) test_db))) = 404
  /\ status (respond (fst (get_games (H := test_platform) casting_assistant
                             (request_with None (Some "0") None) test_db))) = 404.
Proof.
  apply (@page_zero_is_not_found test_platform
           (request_with None (Some "0") None) test_db casting_assistant).
  reflexivity.
Defined.

Section PaginationOrder.

Context `{Platform}.

(** X3. A page number below 0 is not refused: the bounds of the slice are
    negative and count from the end, so page [p <= -1] holds the records
    with index from [len + (p-1)*N] up to [len + p*N]; with at least
    [(1-p)*N] records in the collection that is a full page. *)
Theorem negative_page_counts_from_end {A : Type} `{Formattable A}
  (rq : Request) (C : list A) (p : Z) :
  0 < ROWS_PER_PAGE ->
  asks_page rq p ->
  p <= -1 ->
  paginate_results rq C
    = spec_slice (map format C) (len C + (p - 1) * ROWS_PER_PAGE)
                                (len C + p * ROWS_PER_PAGE)
  /\ ((1 - p) * ROWS_PER_PAGE <= len C ->
      len (paginate_results rq C) = ROWS_PER_PAGE).
Proof.
  intros HN Hp Hneg.
  assert (E : paginate_results rq C
    = spec_slice (map format C) (len C + (p - 1) * ROWS_PER_PAGE)
                                (len C + p * ROWS_PER_PAGE)).
  { unfold paginate_results. rewrite Hp.
    rewrite py_slice_from_end by nia.
    unfold len. rewrite length_map. f_equal. ring. }
  split; [exact E|].
  intros Hlen. rewrite E.
  rewrite spec_slice_firstn_skipn by nia.
  unfold len in *. rewrite length_firstn, length_skipn, length_map. nia.
Qed.

(** X4. The pages 1 to [m], one after the other, are the first [m * N]
    formatted records: no record is skipped and none is served twice. *)
Theorem pages_concatenate {A : Type} `{Formattable A}
  (C : list A) (rqs : nat -> Request) (m : nat) :
  0 <= ROWS_PER_PAGE ->
  (forall k, (k < m)%nat -> asks_page (rqs k) (Z.of_nat k + 1)) ->
  concat (map (fun k => paginate_results (rqs k) C) (seq 0 m))
  = firstn (Z.to_nat (Z.of_nat m * ROWS_PER_PAGE)) (map format C).
Proof.
  intros HN. induction m as [|m IH]; intros Hrq; [reflexivity|].
  rewrite seq_S, map_app, concat_app. cbn [Nat.add map concat].
  rewrite app_nil_r, IH by (intros k Hk; apply Hrq; lia).
  rewrite (page_firstn_skipn (rqs m) C (Z.of_nat m + 1) HN) by (try apply Hrq; lia).
  replace (Z.of_nat m + 1 - 1) with (Z.of_nat m) by lia.
  rewrite <- firstn_plus. f_equal. nia.
Qed.

End PaginationOrder.

(** Page -1 of twenty-five records, ten to a page: the ten records before
    the last ten. *)
Lemma negative_page_counts_from_end_witness :
  paginate_results (H := signed_platform) (request_with None (Some "-1") None) (roster 25)
    = spec_slice (map format (roster 25))
        (len (roster 25) + (-1 - 1) * ROWS_PER_PAGE (Platform := signed_platform))
        (len (roster 25) + -1 * ROWS_PER_PAGE (Platform := signed_platform))
  /\ ((1 - -1) * ROWS_PER_PAGE (Platform := signed_platform) <= len (roster 25) ->
      len (paginate_results (H := signed_platform)
             (request_with None (Some "-1") None) (roster 25))
      = ROWS_PER_PAGE (Platform := signed_platform)).
Proof.
  apply (@negative_page_counts_from_end signed_platform Person _
           (request_with None (Some "-1") None) (roster 25) (-1)).
  - reflexivity.
  - reflexivity.
  - lia.
Defined.

(** The first two pages of twelve records are the twelve records. *)
Lemma pages_concatenate_witness :
  let rqs := fun k : nat =>
    match k with
    | O => request_with None (Some "1") None
    | _ => request_with None (Some "2") None
    end in
  concat (map (fun k => paginate_results (H := test_platform) (rqs k) (roster 12))
              (seq 0 2))
  = firstn (Z.to_nat (Z.of_nat 2 * ROWS_PER_PAGE (Platform := test_platform)))
           (map format (roster 12)).
Proof.
  intros rqs.
  apply (@pages_concatenate test_platform Person _ (roster 12) rqs 2%nat).
  - vm_compute. discriminate.
  - intros k Hk. destruct k as [|[|k]]; [reflexivity | reflexivity | lia].
Defined.

(** ** The list views *)

Section Lists.

Context `{Platform}.

Lemma first_page_firstn {A : Type} `{Formattable A} (rq : Request) (C : list A) :
  0 < ROWS_PER_PAGE -> asks_page rq 1 ->
  paginate_results rq C = firstn (Z.to_nat ROWS_PER_PAGE) (map format C).
Proof.
  intros HN Hp. rewrite (page_firstn_skipn rq C 1) by (assumption || lia).
  now replace (Z.to_nat ((1 - 1) * ROWS_PER_PAGE)) with 0%nat by lia.
Qed.

Lemma nonempty_len_not_zero {A : Type} (x : A) (l : list A) :
  (len (x :: l) =? 0) = false.
Proof. unfold len. apply Z.eqb_neq. cbn [length]. lia. Qed.

(** X5. With a positive page size, the first page of a list view is
    answered 404 exactly when the table is empty; otherwise the answer is
    [{success: true, persons|games: [...]}] with the first [ROWS_PER_PAGE]
    formatted rows in table order, and reading changes nothing. *)
Theorem first_page_lists_table (rq : Request) (db : DB) (payload : Payload) :
  0 < ROWS_PER_PAGE ->
  asks_page rq 1 ->
  (status (respond (fst (get_persons rq db))) = 404 <-> persons db = [])
  /\ (persons db <> [] ->
      get_persons rq db
      = (inr (JObj [("success", JBool true);
                    ("persons", JList (firstn (Z.to_nat ROWS_PER_PAGE)
                                              (map format (persons db))))]), db))
  /\ (status (respond (fst (get_games payload rq db))) = 404 <-> games db = [])
  /\ (games db <> [] ->
      get_games payload rq db
      = (inr (JObj [("success", JBool true);
                    ("games", JList (firstn (Z.to_nat ROWS_PER_PAGE)
                                            (map format (games db))))]), db)).
Proof.
  intros HN Hp.
  destruct (Z.to_nat ROWS_PER_PAGE) as [|k] eqn:Hk; [lia|].
  assert (EP : persons db <> [] ->
      get_persons rq db
      = (inr (JObj [("success", JBool true);
                    ("persons", JList (firstn (S k) (map format (persons db))))]), db)).
  { intros Hne. unfold get_persons. run_view.
    rewrite (first_page_firstn rq (persons db) HN Hp), Hk.
    destruct (persons db) as [|x l]; [congruence|].
    cbn [map firstn]. now rewrite nonempty_len_not_zero. }
  assert (EG : games db <> [] ->
      get_games payload rq db
      = (inr (JObj [("success", JBool true);
                    ("games", JList (firstn (S k) (map format (games db))))]), db)).
  { intros Hne. unfold get_games. run_view.
    rewrite (first_page_firstn rq (games db) HN Hp), Hk.
    destruct (games db) as [|x l]; [congruence|].
    cbn [map firstn]. now rewrite nonempty_len_not_zero. }
  split; [|split; [exact EP|split; [|exact EG]]].
  - split.
    + intros H404. destruct (persons db) as [|x l] eqn:E; [reflexivity|].
      rewrite EP in H404 by congruence. discriminate H404.
    + intros E. unfold get_persons. run_view.
      rewrite (first_page_firstn rq (persons db) HN Hp), E.
      cbn [map]. rewrite firstn_nil. reflexivity.
  - split.
    + intros H404. destruct (games db) as [|x l] eqn:E; [reflexivity|].
      rewrite EG in H404 by congruence. discriminate H404.
    + intros E. unfold get_games. run_view.
      rewrite (first_page_firstn rq (games db) HN Hp), E.
      cbn [map]. rewrite firstn_nil. reflexivity.
Qed.

End Lists.

(** [test_get_all_persons] and [test_get_all_games], at the views. *)
Lemma first_page_lists_table_witness :
  get_persons (H := test_platform) (request_with None (Some "1") None) test_db
  = (inr (JObj [("success", JBool true);
                ("persons", JList (firstn (Z.to_nat (ROWS_PER_PAGE (Platform := test_platform)))
                                          (map format (persons test_db))))]), test_db).
Proof.
  apply (proj1 (proj2 (@first_page_lists_table test_platform
           (request_with None (Some "1") None) test_db casting_assistant
           eq_refl eq_refl))).
  discriminate.
Defined.

(** ** Answers and failures of all views *)

Ltac split_view :=
  repeat (cbn beta iota;
          match goal with
          | |- context [get_json ?rq] => destruct (get_json rq) eqn:?
          | |- context [sql_int ?i] => destruct (sql_int i) eqn:?
          | |- context [filter ?f ?l] => destruct (filter f l) as [|? [|? ?]] eqn:?
          | |- context [@Person_insert ?h ?a ?b] =>
              destruct (@Person_insert h a b) as [[? ?]|] eqn:?
          | |- context [@Game_insert ?h ?a ?b] =>
              destruct (@Game_insert h a b) as [[? ?]|] eqn:?
          | |- context [@Person_update ?h ?a ?b ?c] =>
              destruct (@Person_update h a b c) as [[? ?]|] eqn:?
          | |- context [@Game_update ?h ?a ?b ?c] =>
              destruct (@Game_update h a b c) as [[? ?]|] eqn:?
          | |- context [if ?c then _ else _] => destruct c eqn:?
          end).

Ltac settle_outcome :=
  unfold answered_or_unchanged, success_envelope, failure_envelope; cbn;
  first [ solve [left; split; [reflexivity | eexists; reflexivity]]
        | solve [right; left; split;
                 [split; [auto | eexists; reflexivity] | reflexivity]]
        | solve [right; right; repeat split] ].

Section Outcomes.

Context `{Platform}.

(** X6. Every view, on every request and database, either answers 200
    with a dict that starts with [success: true], or refuses with status
    400, 404 or 422 and the envelope [{success: false, error: status,
    message: text}], or crashes with a bare 500; a request that is refused or
    crashes leaves the database exactly as it was. *)
Theorem refused_requests_change_nothing (op : Operation) (db : DB) :
  answered_or_unchanged (perform op db) db.
Proof.
  destruct op as [rq | rq | payload i rq | payload i rq
                 | payload rq | payload rq | payload i rq | payload i rq];
    cbn [perform].
  - unfold get_persons. run_view. split_view; settle_outcome.
  - unfold insert_persons. run_view. split_view; settle_outcome.
  - unfold edit_persons, Person_query_by_id. run_view. split_view; settle_outcome.
  - unfold delete_persons, Person_query_by_id. run_view. split_view; settle_outcome.
  - unfold get_games. run_view. split_view; settle_outcome.
  - unfold insert_games. run_view. split_view; settle_outcome.
  - unfold edit_games, Game_query_by_id. run_view. split_view; settle_outcome.
  - unfold delete_games, Game_query_by_id. run_view. split_view; settle_outcome.
Qed.

End Outcomes.

(** ** Ids that select nothing, bodies that are no dict *)

Section Refusals.

Context `{Platform}.

Lemma delete_persons_missing (payload : Payload) (i : string) (n : Z)
  (rq : Request) (db : DB) :
  i <> ""%string -> sql_int i = Some n -> persons_with_id n db = [] ->
  delete_persons payload i rq db
  = (inl (HTTPException 404
            (message ("Person with id " ++ i ++ " not found in database.")%string)), db).
Proof.
  intros Hi Hn Hsel. unfold delete_persons, Person_query_by_id. run_view.
  apply String.eqb_neq in Hi. rewrite Hi, Hn. run_view.
  unfold persons_with_id in Hsel. now rewrite Hsel.
Qed.

Lemma delete_games_missing (payload : Payload) (i : string) (n : Z)
  (rq : Request) (db : DB) :
  i <> ""%string -> sql_int i = Some n -> games_with_id n db = [] ->
  delete_games payload i rq db
  = (inl (HTTPException 404
            (message ("Game with id " ++ i ++ " not found in database.")%string)), db).
Proof.
  intros Hi Hn Hsel. unfold delete_games, Game_query_by_id. run_view.
  apply String.eqb_neq in Hi. rewrite Hi, Hn. run_view.
  unfold games_with_id in Hsel. now rewrite Hsel.
Qed.

Lemma edit_persons_missing (payload : Payload) (i : string) (n : Z)
  (rq : Request) (db : DB) :
  i <> ""%string -> truthy (get_json rq) = true ->
  sql_int i = Some n -> persons_with_id n db = [] ->
  edit_persons payload i rq db
  = (inl (HTTPException 404
            (message ("Person with id " ++ i ++ " not found in database.")%string)), db).
Proof.
  intros Hi Hbody Hn Hsel. unfold edit_persons, Person_query_by_id. run_view.
  apply String.eqb_neq in Hi. rewrite Hi, Hbody, Hn. cbn [negb]. run_view.
  unfold persons_with_id in Hsel. now rewrite Hsel.
Qed.

Lemma edit_games_missing (payload : Payload) (i : string) (n : Z)
  (rq : Request) (db : DB) :
  i <> ""%string -> truthy (get_json rq) = true ->
  sql_int i = Some n -> games_with_id n db = [] ->
  edit_games payload i rq db
  = (inl (HTTPException 404
            (message ("Game with id " ++ i ++ " not found in database.")%string)), db).
Proof.
  intros Hi Hbody Hn Hsel. unfold edit_games, Game_query_by_id. run_view.
  apply String.eqb_neq in Hi. rewrite Hi, Hbody, Hn. cbn [negb]. run_view.
  unfold games_with_id in Hsel. now rewrite Hsel.
Qed.

(** X7. PATCH (with any body that tests true, dict or not) and DELETE on
    an id that selects no row abort with 404 and a message that quotes the
    id as it stands in the URL; the database is unchanged. *)
Theorem unknown_id_is_not_found
  (payload : Payload) (i : string) (n : Z) (rq : Request) (db : DB) :
  i <> ""%string ->
  sql_int i = Some n ->
  (persons_with_id n db = [] ->
     let gone := (inl (HTTPException 404
                   (message ("Person with id " ++ i ++ " not found in database.")%string)),
                  db) in
     delete_persons payload i rq db = gone
     /\ (truthy (get_json rq) = true -> edit_persons payload i rq db = gone))
  /\ (games_with_id n db = [] ->
     let gone := (inl (HTTPException 404
                   (message ("Game with id " ++ i ++ " not found in database.")%string)),
                  db) in
     delete_games payload i rq db = gone
     /\ (truthy (get_json rq) = true -> edit_games payload i rq db = gone)).
Proof.
  intros Hi Hn. split; intros Hsel gone; subst gone; split.
  - now apply delete_persons_missing with (n := n).
  - intros Hbody. now apply edit_persons_missing with (n := n).
  - now apply delete_games_missing with (n := n).
  - intros Hbody. now apply edit_games_missing with (n := n).
Qed.

(** X8. A record that was deleted is gone for the requests that follow:
    a second DELETE and a PATCH on the same id are answered 404. *)
Theorem deleted_record_is_gone
  (payload : Payload) (i : string) (n : Z) (rq rq' : Request) (db : DB) :
  i <> ""%string ->
  sql_int i = Some n ->
  (forall p, persons_with_id n db = [p] ->
     let db' := snd (delete_persons payload i rq db) in
     let gone := (inl (HTTPException 404
                   (message ("Person with id " ++ i ++ " not found in database.")%string)),
                  db') in
     delete_persons payload i rq' db' = gone
     /\ (truthy (get_json rq') = true -> edit_persons payload i rq' db' = gone))
  /\ (forall g, games_with_id n db = [g] ->
     let db' := snd (delete_games payload i rq db) in
     let gone := (inl (HTTPException 404
                   (message ("Game with id " ++ i ++ " not found in database.")%string)),
                  db') in
     delete_games payload i rq' db' = gone
     /\ (truthy (get_json rq') = true -> edit_games payload i rq' db' = gone)).
Proof.
  intros Hi Hn. split.
  - intros p Hsel db' gone. subst db' gone.
    rewrite (delete_persons_found payload i n rq db p Hi Hn Hsel). cbn [snd].
    assert (Hgone : persons_with_id n (Person_delete p db) = []).
    { apply Person_delete_selected. now apply selected_person_id in Hsel. }
    split.
    + now apply delete_persons_missing with (n := n).
    + intros Hbody. now apply edit_persons_missing with (n := n).
  - intros g Hsel db' gone. subst db' gone.
    rewrite (delete_games_found payload i n rq db g Hi Hn Hsel). cbn [snd].
    assert (Hgone : games_with_id n (Game_delete g db) = []).
    { apply Game_delete_selected. now apply selected_game_id in Hsel. }
    split.
    + now apply delete_games_missing with (n := n).
    + intros Hbody. now apply edit_games_missing with (n := n).
Qed.

(** X9. The order of the checks in the PATCH views: a body that is missing
    or tests false is refused with 400 before the record is looked up, so
    the answer is the same for an id that exists, one that does not, and one
    the database cannot read as a number. *)
Theorem patch_without_body_is_bad_request
  (payload : Payload) (i : string) (rq : Request) (db : DB) :
  i <> ""%string ->
  truthy (get_json rq) = false ->
  let bad := HTTPException 400 (message "request does not contain a valid JSON body.") in
  edit_persons payload i rq db = (inl bad, db)
  /\ edit_games payload i rq db = (inl bad, db)
  /\ respond (inl bad)
     = {| status := 400;
          data := Some (error_envelope 400
                    (JStr "request does not contain a valid JSON body.")) |}.
Proof.
  intros Hi Hbody bad. apply String.eqb_neq in Hi. repeat split.
  - unfold edit_persons. run_view. now rewrite Hi, Hbody.
  - unfold edit_games. run_view. now rewrite Hi, Hbody.
Qed.

Lemma truthy_non_dict_truthy (body : value) :
  truthy_non_dict body = true -> truthy body = true.
Proof. now destruct body. Qed.

(** X10. A JSON body that tests true but is no dict (a list, a string, a
    number, [true]) is not refused as a bad request: [body.get] raises
    [AttributeError], nobody handles it, and the answer is a bare 500.  This
    holds for both POST views and for the PATCH views on a record that
    exists; nothing is stored. *)
Theorem non_dict_body_crashes
  (payload : Payload) (i : string) (n : Z) (rq : Request) (db : DB) :
  truthy_non_dict (get_json rq) = true ->
  let crash := (inl (PyError "AttributeError"), db) in
  insert_persons rq db = crash
  /\ insert_games payload rq db = crash
  /\ respond (fst crash) = {| status := 500; data := None |}
  /\ (forall p, i <> ""%string -> sql_int i = Some n -> persons_with_id n db = [p] ->
        edit_persons payload i rq db = crash)
  /\ (forall g, i <> ""%string -> sql_int i = Some n -> games_with_id n db = [g] ->
        edit_games payload i rq db = crash).
Proof.
  intros Hbody crash. subst crash.
  pose proof (truthy_non_dict_truthy _ Hbody) as Htrue.
  split; [|split; [|split; [reflexivity|split]]].
  - unfold insert_persons. run_view. rewrite Htrue. cbn [negb].
    now destruct (get_json rq).
  - unfold insert_games. run_view. rewrite Htrue. cbn [negb].
    now destruct (get_json rq).
  - intros p Hi Hn Hsel. unfold edit_persons, Person_query_by_id. run_view.
    apply String.eqb_neq in Hi. rewrite Hi, Htrue, Hn. cbn [negb]. run_view.
    unfold persons_with_id in Hsel. rewrite Hsel.
    now destruct (get_json rq).
  - intros g Hi Hn Hsel. unfold edit_games, Game_query_by_id. run_view.
    apply String.eqb_neq in Hi. rewrite Hi, Htrue, Hn. cbn [negb]. run_view.
    unfold games_with_id in Hsel. rewrite Hsel.
    now destruct (get_json rq).
Qed.

End Refusals.

(** [test_error_404_delete_person] and [test_error_404_edit_person]. *)
Lemma unknown_id_is_not_found_witness :
  let rq := request_with None None (Some (JObj [("age", JNum 30)])) in
  let gone := (inl (HTTPException 404
                 (message "Person with id 123412 not found in database.")), test_db) in
  delete_persons (H := test_platform) casting_director "123412" rq test_db = gone
  /\ (truthy (get_json rq) = true ->
      edit_persons (H := test_platform) casting_director "123412" rq test_db = gone).
Proof.
  intros rq gone.
  apply (proj1 (@unknown_id_is_not_found test_platform casting_director
                  "123412" 123412 rq test_db ltac:(discriminate) eq_refl)).
  reflexivity.
Defined.

(** DELETE /persons/1 twice. *)
Lemma deleted_record_is_gone_witness :
  let rq := request_with None None None in
  let rq' := request_with None None (Some (JObj [("age", JNum 30)])) in
  let db' := snd (delete_persons (H := test_platform) casting_director "1" rq test_db) in
  let gone := (inl (HTTPException 404
                 (message "Person with id 1 not found in database.")), db') in
  delete_persons (H := test_platform) casting_director "1" rq' db' = gone
  /\ (truthy (get_json rq') = true ->
      edit_persons (H := test_platform) casting_director "1" rq' db' = gone).
Proof.
  intros rq rq' db' gone.
  apply (proj1 (@deleted_record_is_gone test_platform casting_director
                  "1" 1 rq rq' test_db ltac:(discriminate) eq_refl)
           {| person_id := Some 1; person_name := JStr "Matthew";
              person_gender := JStr "Male"; person_age := JNum 25 |}).
  reflexivity.
Defined.

(** [test_error_400_edit_person]: PATCH /persons/123412 without a body. *)
Lemma patch_without_body_is_bad_request_witness :
  let bad := HTTPException 400 (message "request does not contain a valid JSON body.") in
  let rq := request_with None None None in
  edit_persons (H := test_platform) casting_director "123412" rq test_db
    = (inl bad, test_db)
  /\ edit_games (H := test_platform) casting_director "123412" rq test_db
    = (inl bad, test_db)
  /\ respond (inl bad)
     = {| status := 400;
          data := Some (error_envelope 400
                    (JStr "request does not contain a valid JSON body.")) |}.
Proof.
  intros bad rq.
  apply (@patch_without_body_is_bad_request test_platform casting_director
           "123412" rq test_db).
  - discriminate.
  - reflexivity.
Defined.

(** POST /persons with the JSON array [[1]]. *)
Lemma non_dict_body_crashes_witness :
  let rq := request_with None None (Some (JList [JNum 1])) in
  insert_persons (H := test_platform) rq test_db
  = (inl (PyError "AttributeError"), test_db).
Proof.
  intros rq.
  apply (proj1 (@non_dict_body_crashes test_platform casting_director "1" 1
                  rq test_db eq_refl)).
Defined.

(** ** What PATCH stores and what it leaves alone *)

Lemma supplied_key_stored (o : list (string * value)) (key : string) (v d : value) :
  dict_lookup o key = Some v -> dict_get o key d = v.
Proof. unfold dict_get. now intros ->. Qed.

Section Stored.

Context `{Platform}.

(** An update that raises was refused a value for one of its columns. *)
Lemma Person_update_none (loaded self : Person) (db : DB) :
  Person_update loaded self db = None ->
  column_after store_string (person_name self) (person_name loaded) = None
  \/ column_after store_string (person_gender self) (person_gender loaded) = None
  \/ column_after store_integer (person_age self) (person_age loaded) = None.
Proof.
  unfold Person_update.
  destruct (column_after store_string (person_name self) (person_name loaded));
    [|now left].
  destruct (column_after store_string (person_gender self) (person_gender loaded));
    [|now right; left].
  destruct (column_after store_integer (person_age self) (person_age loaded));
    [|now right; right].
  now destruct (Person_dirty loaded self).
Qed.

Lemma Game_update_none (loaded self : Game) (db : DB) :
  Game_update loaded self db = None ->
  column_after store_string (game_title self) (game_title loaded) = None
  \/ column_after store_date (game_release_date self) (game_release_date loaded) = None.
Proof.
  unfold Game_update.
  destruct (column_after store_string (game_title self) (game_title loaded));
    [|now left].
  destruct (column_after store_date (game_release_date self)
              (game_release_date loaded)); [|now right].
  now destruct (Game_dirty loaded self).
Qed.

(** X11. A PATCH with a non-empty dict on a record that exists has two
    outcomes.  Either it is answered with the integer id of the record and
    the record as the database now holds it, in a list of one - the row the
    query by that id selects after the call; the id is the one it had, and
    for every key the body supplies the column holds what [column_after]
    gives for the supplied value: what it held when the value equals it,
    else what the engine made of the value.  Or the engine refuses the value
    assigned to one of the columns: the commit raises, the answer is a bare
    500 and the database is unchanged. *)
Theorem patch_answers_stored_record
  (payload : Payload) (i : string) (n : Z) (rq : Request) (db : DB)
  (o : list (string * value)) :
  i <> ""%string ->
  get_json rq = JObj o ->
  o <> [] ->
  sql_int i = Some n ->
  (forall p, persons_with_id n db = [p] ->
     (exists p',
        persons_with_id n (snd (edit_persons payload i rq db)) = [p']
        /\ fst (edit_persons payload i rq db)
           = inr (JObj [("success", JBool true); ("updated", JNum n);
                        ("person", JList [format p'])])
        /\ person_id p' = Some n
        /\ (forall v, dict_lookup o "name" = Some v ->
            column_after store_string v (person_name p) = Some (person_name p'))
        /\ (forall v, dict_lookup o "age" = Some v ->
            column_after store_integer v (person_age p) = Some (person_age p'))
        /\ (forall v, dict_lookup o "gender" = Some v ->
            column_after store_string v (person_gender p) = Some (person_gender p')))
     \/ (edit_persons payload i rq db = (inl (PyError "DBAPIError"), db)
         /\ respond (fst (edit_persons payload i rq db))
            = {| status := 500; data := None |}
         /\ (column_after store_string (dict_get o "name" (person_name p))
               (person_name p) = None
             \/ column_after store_string (dict_get o "gender" (person_gender p))
                  (person_gender p) = None
             \/ column_after store_integer (dict_get o "age" (person_age p))
                  (person_age p) = None)))
  /\ (forall g, games_with_id n db = [g] ->
     (exists g',
        games_with_id n (snd (edit_games payload i rq db)) = [g']
        /\ fst (edit_games payload i rq db)
           = inr (JObj [("success", JBool true); ("edited", JNum n);
                        ("game", JList [format g'])])
        /\ game_id g' = Some n
        /\ (forall v, dict_lookup o "title" = Some v ->
            column_after store_string v (game_title g) = Some (game_title g'))
        /\ (forall v, dict_lookup o "release_date" = Some v ->
            column_after store_date v (game_release_date g)
            = Some (game_release_date g')))
     \/ (edit_games payload i rq db = (inl (PyError "DBAPIError"), db)
         /\ respond (fst (edit_games payload i rq db))
            = {| status := 500; data := None |}
         /\ (column_after store_string (dict_get o "title" (game_title g))
               (game_title g) = None
             \/ column_after store_date
                  (dict_get o "release_date" (game_release_date g))
                  (game_release_date g) = None))).
Proof.
  intros Hi Hbody Ho Hn. split.
  - intros p Hsel.
    rewrite (edit_persons_found payload i n rq db p o Hi Hbody Ho Hn Hsel).
    pose proof (has_id_eq _ _ (selected_person_id _ _ _ _ Hsel)) as Hp.
    destruct (Person_update p (patch_person p o) db) as [[row db']|] eqn:Hup.
    + left. exists row. cbn [fst snd].
      destruct (Person_update_some _ _ _ _ _ Hup)
        as (Hid & Cname & Cgender & Cage & _).
      destruct (Person_update_selected _ _ _ _ _ _ Hsel Hup) as (Hrow & _).
      cbn [patch_person person_name person_gender person_age] in Cname, Cgender, Cage.
      rewrite Hid, Hp. cbn [id_value].
      split; [exact Hrow|]. split; [reflexivity|]. split; [reflexivity|].
      split; [|split]; intros v Hv.
      * now rewrite (supplied_key_stored _ _ _ _ Hv) in Cname.
      * now rewrite (supplied_key_stored _ _ _ _ Hv) in Cage.
      * now rewrite (supplied_key_stored _ _ _ _ Hv) in Cgender.
    + right. split; [reflexivity|]. split; [reflexivity|].
      exact (Person_update_none _ _ _ Hup).
  - intros g Hsel.
    rewrite (edit_games_found payload i n rq db g o Hi Hbody Ho Hn Hsel).
    pose proof (has_id_eq _ _ (selected_game_id _ _ _ _ Hsel)) as Hg.
    destruct (Game_update g (patch_game g o) db) as [[row db']|] eqn:Hup.
    + left. exists row. cbn [fst snd].
      destruct (Game_update_some _ _ _ _ _ Hup) as (Hid & Ctitle & Cdate & _).
      destruct (Game_update_selected _ _ _ _ _ _ Hsel Hup) as (Hrow & _).
      cbn [patch_game game_title game_release_date] in Ctitle, Cdate.
      rewrite Hid, Hg. cbn [id_value].
      split; [exact Hrow|]. split; [reflexivity|]. split; [reflexivity|].
      split; intros v Hv.
      * now rewrite (supplied_key_stored _ _ _ _ Hv) in Ctitle.
      * now rewrite (supplied_key_stored _ _ _ _ Hv) in Cdate.
    + right. split; [reflexivity|]. split; [reflexivity|].
      exact (Game_update_none _ _ _ Hup).
Qed.

(** X12. PATCH and DELETE addressed to the id [n] touch nothing else: the
    rows under every other id and the whole other table are the same after
    the call, whether the request was accepted or refused. *)
Theorem other_rows_untouched
  (payload : Payload) (i : string) (n m : Z) (rq : Request) (db : DB) :
  sql_int i = Some n ->
  m <> n ->
  (persons_with_id m (snd (edit_persons payload i rq db)) = persons_with_id m db
   /\ games (snd (edit_persons payload i rq db)) = games db)
  /\ (persons_with_id m (snd (delete_persons payload i rq db)) = persons_with_id m db
      /\ games (snd (delete_persons payload i rq db)) = games db)
  /\ (games_with_id m (snd (edit_games payload i rq db)) = games_with_id m db
      /\ persons (snd (edit_games payload i rq db)) = persons db)
  /\ (games_with_id m (snd (delete_games payload i rq db)) = games_with_id m db
      /\ persons (snd (delete_games payload i rq db)) = persons db).
Proof.
  intros Hn Hmn. split; [|split; [|split]].
  - destruct (edit_persons_database payload i rq db)
      as [E | (n' & p & o & row & Hn' & Hsel & Hbody & Hup)];
      [rewrite E; now split|].
    assert (n' = n) by congruence. subst n'.
    destruct (Person_update_selected _ _ _ _ _ _ Hsel Hup)
      as (_ & Hother & Hgames & _).
    split; [now apply Hother | exact Hgames].
  - unfold delete_persons, Person_query_by_id. run_view.
    destruct (i =? "")%string; [now split|]. rewrite Hn. run_view.
    destruct (filter (fun r => has_id n (person_id r)) (persons db))
      as [|p [|p2 rest]] eqn:Hsel; try (now split).
    cbn [snd]. split; [|reflexivity].
    pose proof (selected_person_id n db p [] Hsel) as Hp.
    unfold persons_with_id, Person_delete; cbn [persons].
    apply filter_remove_other.
    intros r Hr. rewrite (has_id_same_id n) in Hr by exact Hp.
    now apply has_id_other with (n := n).
  - destruct (edit_games_database payload i rq db)
      as [E | (n' & g & o & row & Hn' & Hsel & Hbody & Hup)];
      [rewrite E; now split|].
    assert (n' = n) by congruence. subst n'.
    destruct (Game_update_selected _ _ _ _ _ _ Hsel Hup)
      as (_ & Hother & Hpersons & _).
    split; [now apply Hother | exact Hpersons].
  - unfold delete_games, Game_query_by_id. run_view.
    destruct (i =? "")%string; [now split|]. rewrite Hn. run_view.
    destruct (filter (fun r => has_id n (game_id r)) (games db))
      as [|g [|g2 rest]] eqn:Hsel; try (now split).
    cbn [snd]. split; [|reflexivity].
    pose proof (selected_game_id n db g [] Hsel) as Hg.
    unfold games_with_id, Game_delete; cbn [games].
    apply filter_remove_other.
    intros r Hr. rewrite (has_id_same_id n) in Hr by exact Hg.
    now apply has_id_other with (n := n).
Qed.

End Stored.

(** PATCH /persons/1 with the age as the string "30": the [Integer] column
    holds the number 30, and the answer shows it. *)
Lemma patch_answers_stored_record_witness :
  let o := [("age", JStr "30")] in
  let rq := request_with None None (Some (JObj o)) in
  let p := {| person_id := Some 1; person_name := JStr "Matthew";
              person_gender := JStr "Male"; person_age := JNum 25 |} in
  (exists p',
     persons_with_id 1
       (snd (edit_persons (H := test_platform) casting_director "1" rq test_db)) = [p']
     /\ fst (edit_persons (H := test_platform) casting_director "1" rq test_db)
        = inr (JObj [("success", JBool true); ("updated", JNum 1);
                     ("person", JList [format p'])])
     /\ person_id p' = Some 1
     /\ (forall v, dict_lookup o "name" = Some v ->
         column_after (store_string (Platform := test_platform)) v (person_name p)
         = Some (person_name p'))
     /\ (forall v, dict_lookup o "age" = Some v ->
         column_after (store_integer (Platform := test_platform)) v (person_age p)
         = Some (person_age p'))
     /\ (forall v, dict_lookup o "gender" = Some v ->
         column_after (store_string (Platform := test_platform)) v (person_gender p)
         = Some (person_gender p')))
  \/ (edit_persons (H := test_platform) casting_director "1" rq test_db
      = (inl (PyError "DBAPIError"), test_db)
      /\ respond (fst (edit_persons (H := test_platform) casting_director "1" rq test_db))
         = {| status := 500; data := None |}
      /\ (column_after (store_string (Platform := test_platform))
            (dict_get o "name" (person_name p)) (person_name p) = None
          \/ column_after (store_string (Platform := test_platform))
               (dict_get o "gender" (person_gender p)) (person_gender p) = None
          \/ column_after (store_integer (Platform := test_platform))
               (dict_get o "age" (person_age p)) (person_age p) = None)).
Proof.
  intros o rq p.
  apply (proj1 (@patch_answers_stored_record test_platform casting_director
                  "1" 1 rq test_db o
                  ltac:(discriminate) eq_refl ltac:(discriminate) eq_refl) p).
  reflexivity.
Defined.

Lemma other_rows_untouched_witness :
  let rq := request_with None None (Some (JObj [("name", JStr "Anne")])) in
  let db := {| persons := roster 2; persons_id_seq := 2;
               games := games test_db; games_id_seq := 1 |} in
  persons_with_id 1 (snd (edit_persons (H := test_platform) casting_director "2" rq db))
    = persons_with_id 1 db
  /\ games (snd (edit_persons (H := test_platform) casting_director "2" rq db))
     = games db.
Proof.
  intros rq db.
  apply (proj1 (@other_rows_untouched test_platform casting_director
                  "2" 2 1 rq db eq_refl ltac:(lia))).
Defined.

(** ** Primary keys *)

Lemma same_id_sym (i j : option Z) : same_id i j = same_id j i.
Proof.
  destruct i as [n|], j as [m|]; cbn; try reflexivity. apply Z.eqb_sym.
Qed.

Lemma key_below_mono (b b' : Z) (i : option Z) :
  b <= b' -> key_below b i = true -> key_below b' i = true.
Proof.
  destruct i as [m|]; [|discriminate]. cbn. intros Hb Hm.
  apply Z.leb_le in Hm. apply Z.leb_le. lia.
Qed.

Lemma keys_below_mono (b b' : Z) (ids : list (option Z)) :
  b <= b' -> forallb (key_below b) ids = true -> forallb (key_below b') ids = true.
Proof.
  intros Hb Hall. rewrite forallb_forall in *. intros i Hi.
  apply key_below_mono with (b := b); auto.
Qed.

Lemma key_below_not_next (b : Z) (i : option Z) :
  key_below b i = true ->
  same_id i (Some (b + 1)) = false /\ same_id (Some (b + 1)) i = false.
Proof.
  destruct i as [m|]; [|discriminate]. cbn. intros Hm. apply Z.leb_le in Hm.
  split; apply Z.eqb_neq; lia.
Qed.

Lemma next_key_is_fresh (b : Z) (ids : list (option Z)) :
  forallb (key_below b) ids = true ->
  existsb (same_id (Some (b + 1))) ids = false.
Proof.
  induction ids as [|i ids IH]; [reflexivity|]. cbn [forallb existsb].
  intros Hall. apply andb_true_iff in Hall as [Hi Hall].
  destruct (key_below_not_next b i Hi) as [_ ->]. now rewrite IH.
Qed.

(** A key put between distinct keys: the keys stay distinct exactly when it
    is none of them. *)
Lemma distinct_keys_middle (i : option Z) (l1 l2 : list (option Z)) :
  distinct_keys (l1 ++ i :: l2)
  = negb (existsb (same_id i) (l1 ++ l2)) && distinct_keys (l1 ++ l2).
Proof.
  induction l1 as [|j l1 IH]; [reflexivity|].
  cbn [app distinct_keys existsb]. rewrite IH, !existsb_app.
  cbn [existsb]. rewrite (same_id_sym j i).
  destruct (same_id i j), (existsb (same_id j) l1), (existsb (same_id j) l2),
    (existsb (same_id i) l1), (existsb (same_id i) l2),
    (distinct_keys (l1 ++ l2)); reflexivity.
Qed.

Lemma distinct_keys_place (k : nat) (i : option Z) (ids : list (option Z)) :
  distinct_keys (place k i ids)
  = negb (existsb (same_id i) ids) && distinct_keys ids.
Proof.
  unfold place. rewrite distinct_keys_middle. now rewrite firstn_skipn.
Qed.

Section KeyedRows.

Context {A : Type} (key : A -> option Z).

Lemma existsb_filter_false (P : option Z -> bool) (g : A -> bool) (l : list A) :
  existsb P (map key l) = false -> existsb P (map key (filter g l)) = false.
Proof.
  induction l as [|a l IH]; [reflexivity|]. cbn [map existsb filter].
  intros Hex. apply orb_false_iff in Hex as [Ha Hl].
  destruct (g a); cbn [map existsb]; [rewrite Ha|]; auto.
Qed.

Lemma distinct_keys_filter (g : A -> bool) (l : list A) :
  distinct_keys (map key l) = true -> distinct_keys (map key (filter g l)) = true.
Proof.
  induction l as [|a l IH]; [reflexivity|]. cbn [map distinct_keys filter].
  intros Hd. apply andb_true_iff in Hd as [Ha Hl].
  destruct (g a); cbn [map distinct_keys]; [|auto].
  rewrite IH by assumption. rewrite andb_true_r.
  apply negb_true_iff. apply existsb_filter_false. now apply negb_true_iff.
Qed.

Lemma keys_below_filter (b : Z) (g : A -> bool) (l : list A) :
  forallb (key_below b) (map key l) = true ->
  forallb (key_below b) (map key (filter g l)) = true.
Proof.
  induction l as [|a l IH]; [reflexivity|]. cbn [map forallb filter].
  intros Hall. apply andb_true_iff in Hall as [Ha Hl].
  destruct (g a); cbn [map forallb]; [rewrite Ha|]; auto.
Qed.

(** Once the rows under a key are removed, no row has it. *)
Lemma removed_key_absent (i : option Z) (l : list A) :
  existsb (same_id i)
    (map key (filter (fun r => negb (same_id i (key r))) l)) = false.
Proof.
  induction l as [|a l IH]; [reflexivity|]. cbn [filter].
  destruct (same_id i (key a)) eqn:E; cbn [negb]; [exact IH|].
  cbn [map existsb]. now rewrite E, IH.
Qed.

Lemma no_key_no_row (n : Z) (l : list A) :
  existsb (same_id (Some n)) (map key l) = false ->
  filter (fun r => has_id n (key r)) l = [].
Proof.
  induction l as [|a l IH]; [reflexivity|]. cbn [map existsb filter same_id].
  intros Hex. apply orb_false_iff in Hex as [Ha Hl]. rewrite Ha. now apply IH.
Qed.

Lemma distinct_keys_one_row (n : Z) (l : list A) :
  distinct_keys (map key l) = true ->
  (length (filter (fun r => has_id n (key r)) l) <= 1)%nat.
Proof.
  induction l as [|a l IH]; [cbn; lia|]. cbn [map distinct_keys filter].
  intros Hd. apply andb_true_iff in Hd as [Ha Hl].
  destruct (has_id n (key a)) eqn:E; [|now apply IH].
  apply has_id_eq in E. rewrite E in Ha. apply negb_true_iff in Ha.
  rewrite (no_key_no_row n l Ha). cbn. lia.
Qed.

Lemma keys_below_no_next (b : Z) (l : list A) :
  forallb (key_below b) (map key l) = true ->
  filter (fun r => has_id (b + 1) (key r)) l = [].
Proof.
  intros Hall. apply no_key_no_row. now apply next_key_is_fresh.
Qed.

Lemma selected_key_below (b n : Z) (p : A) (l rest : list A) :
  forallb (key_below b) (map key l) = true ->
  filter (fun r => has_id n (key r)) l = p :: rest ->
  key_below b (key p) = true.
Proof.
  intros Hall Hsel. rewrite forallb_forall in Hall. apply Hall.
  apply in_map. assert (Hin : In p (filter (fun r => has_id n (key r)) l))
    by (rewrite Hsel; now left).
  now apply filter_In in Hin as [Hin _].
Qed.

(** A new row under the next key keeps the keys within the sequence and
    distinct, wherever the scan shows it. *)
Lemma keys_with_next (b : Z) (k : nat) (row : A) (l : list A) :
  key row = Some (b + 1) ->
  forallb (key_below b) (map key l) = true /\ distinct_keys (map key l) = true ->
  forallb (key_below (b + 1)) (map key (place k row l)) = true
  /\ distinct_keys (map key (place k row l)) = true.
Proof.
  intros Hrow [HB HD]. rewrite map_place, forallb_place, distinct_keys_place, Hrow.
  rewrite (next_key_is_fresh b _ HB), HD.
  rewrite (keys_below_mono b (b + 1) (map key l) ltac:(lia) HB).
  split; [|reflexivity]. cbn. rewrite andb_true_r. apply Z.leb_le. lia.
Qed.

(** A rewritten row whose key is within the sequence keeps the keys within
    it and distinct. *)
Lemma keys_rewritten `{Platform} `{Formattable A} (b : Z) (row : A) (l : list A) :
  key_below b (key row) = true ->
  forallb (key_below b) (map key l) = true /\ distinct_keys (map key l) = true ->
  forallb (key_below b) (map key (rewrite_row key row l)) = true
  /\ distinct_keys (map key (rewrite_row key row l)) = true.
Proof.
  intros Hrow [HB HD]. unfold rewrite_row.
  rewrite map_place, forallb_place, distinct_keys_place, Hrow.
  rewrite removed_key_absent, keys_below_filter, distinct_keys_filter by assumption.
  split; reflexivity.
Qed.

End KeyedRows.

Lemma well_keyed_parts (db : DB) :
  well_keyed db = true <->
  (forallb (key_below (persons_id_seq db)) (map person_id (persons db)) = true
   /\ distinct_keys (map person_id (persons db)) = true)
  /\ (forallb (key_below (games_id_seq db)) (map game_id (games db)) = true
      /\ distinct_keys (map game_id (games db)) = true).
Proof.
  unfold well_keyed. rewrite !andb_true_iff. tauto.
Qed.

Lemma Person_delete_well_keyed (self : Person) (db : DB) :
  well_keyed db = true -> well_keyed (Person_delete self db) = true.
Proof.
  rewrite !well_keyed_parts. intros [[HB HD] HG]. split; [|exact HG].
  unfold Person_delete; cbn [persons persons_id_seq]. split.
  - now apply keys_below_filter.
  - now apply distinct_keys_filter.
Qed.

Lemma Game_delete_well_keyed (self : Game) (db : DB) :
  well_keyed db = true -> well_keyed (Game_delete self db) = true.
Proof.
  rewrite !well_keyed_parts. intros [HP [HB HD]]. split; [exact HP|].
  unfold Game_delete; cbn [games games_id_seq]. split.
  - now apply keys_below_filter.
  - now apply distinct_keys_filter.
Qed.

Section KeyInvariant.

Context `{Platform}.

Lemma Person_insert_well_keyed (self row : Person) (db db' : DB) :
  Person_insert self db = Some (row, db') ->
  well_keyed db = true -> well_keyed db' = true.
Proof.
  intros Hin. destruct (Person_insert_some _ _ _ _ Hin) as (Hid & _ & _ & _ & ->).
  rewrite !well_keyed_parts. intros [HP HG]. split; [|exact HG].
  cbn [persons persons_id_seq]. now apply keys_with_next.
Qed.

Lemma Game_insert_well_keyed (self row : Game) (db db' : DB) :
  Game_insert self db = Some (row, db') ->
  well_keyed db = true -> well_keyed db' = true.
Proof.
  intros Hin. destruct (Game_insert_some _ _ _ _ Hin) as (Hid & _ & _ & ->).
  rewrite !well_keyed_parts. intros [HP HG]. split; [exact HP|].
  cbn [games games_id_seq]. now apply keys_with_next.
Qed.

Lemma Person_update_well_keyed (n : Z) (p self row : Person) (db db' : DB) :
  persons_with_id n db = [p] ->
  Person_update p self db = Some (row, db') ->
  well_keyed db = true -> well_keyed db' = true.
Proof.
  intros Hsel Hup Hdb.
  destruct (Person_update_some _ _ _ _ _ Hup) as (Hid & _ & _ & _ & [[_ ->] | ->]);
    [exact Hdb|].
  revert Hdb. rewrite !well_keyed_parts. intros [HP HG]. split; [|exact HG].
  cbn [persons persons_id_seq]. apply keys_rewritten; [|exact HP].
  rewrite Hid. now apply (selected_key_below person_id _ n p (persons db) []).
Qed.

Lemma Game_update_well_keyed (n : Z) (g self row : Game) (db db' : DB) :
  games_with_id n db = [g] ->
  Game_update g self db = Some (row, db') ->
  well_keyed db = true -> well_keyed db' = true.
Proof.
  intros Hsel Hup Hdb.
  destruct (Game_update_some _ _ _ _ _ Hup) as (Hid & _ & _ & [[_ ->] | ->]);
    [exact Hdb|].
  revert Hdb. rewrite !well_keyed_parts. intros [HP HG]. split; [exact HP|].
  cbn [games games_id_seq]. apply keys_rewritten; [|exact HG].
  rewrite Hid. now apply (selected_key_below game_id _ n g (games db) []).
Qed.

Lemma perform_well_keyed (op : Operation) (db : DB) :
  well_keyed db = true -> well_keyed (snd (perform op db)) = true.
Proof.
  intros Hdb.
  destruct op as [rq | rq | payload i rq | payload i rq
                 | payload rq | payload rq | payload i rq | payload i rq];
    cbn [perform].
  - now rewrite get_persons_database.
  - destruct (insert_persons_database rq db)
      as [E | (name & gender & age & row & _ & Hin)]; [now rewrite E|].
    now apply (Person_insert_well_keyed _ _ _ _ Hin).
  - destruct (edit_persons_database payload i rq db)
      as [E | (n & p & o & row & _ & Hsel & _ & Hup)]; [now rewrite E|].
    now apply (Person_update_well_keyed _ _ _ _ _ _ Hsel Hup).
  - destruct (delete_persons_database payload i rq db) as [E | (p & E)];
      rewrite E; [assumption | now apply Person_delete_well_keyed].
  - now rewrite get_games_database.
  - destruct (insert_games_database payload rq db)
      as [E | (title & rd & row & _ & Hin)]; [now rewrite E|].
    now apply (Game_insert_well_keyed _ _ _ _ Hin).
  - destruct (edit_games_database payload i rq db)
      as [E | (n & g & o & row & _ & Hsel & _ & Hup)]; [now rewrite E|].
    now apply (Game_update_well_keyed _ _ _ _ _ _ Hsel Hup).
  - destruct (delete_games_database payload i rq db) as [E | (g & E)];
      rewrite E; [assumption | now apply Game_delete_well_keyed].
Qed.

(** X13. Whatever sequence of requests the views serve, the keys of each
    table stay distinct and within the ids already handed out; hence a
    query by id selects at most one row, and [one_or_none] in the PATCH and
    DELETE views never meets several. *)
Theorem keys_stay_unique (ops : list Operation) (db : DB) :
  well_keyed db = true ->
  well_keyed (perform_all ops db) = true
  /\ (forall n, (length (persons_with_id n (perform_all ops db)) <= 1)%nat)
  /\ (forall n, (length (games_with_id n (perform_all ops db)) <= 1)%nat).
Proof.
  intros Hdb.
  assert (Hall : well_keyed (perform_all ops db) = true).
  { revert db Hdb. induction ops as [|op ops IH]; intros db Hdb; [exact Hdb|].
    cbn [perform_all]. apply IH. now apply perform_well_keyed. }
  split; [exact Hall|].
  apply well_keyed_parts in Hall as [[_ HP] [_ HG]].
  split; intros n.
  - now apply (distinct_keys_one_row person_id).
  - now apply (distinct_keys_one_row game_id).
Qed.

End KeyInvariant.

(** Two POSTs, a PATCH and a DELETE on the test database. *)
Lemma keys_stay_unique_witness :
  let ops :=
    [OpInsertPersons (request_with None None
        (Some (JObj [("name", JStr "Crisso"); ("age", JNum 25)])));
     OpDeletePersons casting_director "1" (request_with None None None);
     OpInsertPersons (request_with None None
        (Some (JObj [("name", JStr "Anne"); ("age", JNum 31)])));
     OpEditPersons casting_director "3"
        (request_with None None (Some (JObj [("id", JNum 2)])))] in
  well_keyed (perform_all (H := test_platform) ops test_db) = true
  /\ (forall n, (length (persons_with_id n
                   (perform_all (H := test_platform) ops test_db)) <= 1)%nat)
  /\ (forall n, (length (games_with_id n
                   (perform_all (H := test_platform) ops test_db)) <= 1)%nat).
Proof.
  intros ops.
  apply (@keys_stay_unique test_platform ops test_db). reflexivity.
Defined.

(** ** POST, then the query by the id it returned *)

Section Posted.

Context `{Platform}.

(** The POST views on a dict whose required fields pass the presence
    test: the answer is that of the commit. *)
Lemma insert_persons_created (rq : Request) (db : DB) (o : list (string * value)) :
  get_json rq = JObj o ->
  truthy (dict_get o "name" JNull) = true ->
  truthy (dict_get o "age" JNull) = true ->
  insert_persons rq db
  = match Person_insert (Person_init (dict_get o "name" JNull)
                           (dict_get o "gender" (JStr "Other"))
                           (dict_get o "age" JNull)) db with
    | Some (row, db') =>
        (inr (JObj [("success", JBool true);
                    ("created", id_value (person_id row))]), db')
    | None => (inl (PyError "DBAPIError"), db)
    end.
Proof.
  intros Hbody Tname Tage. unfold insert_persons. run_view. rewrite Hbody.
  destruct o as [|kv o']; [discriminate Tname|]. cbn [truthy negb]. run_view.
  rewrite Tname, Tage. cbn [negb].
  now destruct (Person_insert _ db) as [[row db']|].
Qed.

Lemma insert_games_created (payload : Payload) (rq : Request) (db : DB)
  (o : list (string * value)) :
  get_json rq = JObj o ->
  truthy (dict_get o "title" JNull) = true ->
  truthy (dict_get o "release_date" JNull) = true ->
  insert_games payload rq db
  = match Game_insert (Game_init (dict_get o "title" JNull)
                         (dict_get o "release_date" JNull)) db with
    | Some (row, db') =>
        (inr (JObj [("success", JBool true);
                    ("created", id_value (game_id row))]), db')
    | None => (inl (PyError "DBAPIError"), db)
    end.
Proof.
  intros Hbody Ttitle Tdate. unfold insert_games. run_view. rewrite Hbody.
  destruct o as [|kv o']; [discriminate Ttitle|]. cbn [truthy negb]. run_view.
  rewrite Ttitle, Tdate. cbn [negb].
  now destruct (Game_insert _ db) as [[row db']|].
Qed.

(** X14. POST /persons with a dict whose name and age test true, when the
    database takes the three values into their columns: the answer carries
    an id no row had before; afterwards the query by that id selects exactly
    one row, which formats to that id and to what the columns hold for the
    submitted name and age and for the gender - the submitted one when the
    key is there (null stays null), "Other" when it is not; the rows under
    all other ids and the games are as before. *)
Theorem posted_person_is_found (rq : Request) (db : DB) (o : list (string * value))
  (name' gender' age' : value) :
  well_keyed db = true ->
  get_json rq = JObj o ->
  truthy (dict_get o "name" JNull) = true ->
  truthy (dict_get o "age" JNull) = true ->
  store_string (dict_get o "name" JNull) = Some name' ->
  bind_param store_string (dict_get o "gender" (JStr "Other")) = Some gender' ->
  store_integer (dict_get o "age" JNull) = Some age' ->
  let n := persons_id_seq db + 1 in
  let db' := snd (insert_persons rq db) in
  fst (insert_persons rq db)
    = inr (JObj [("success", JBool true); ("created", JNum n)])
  /\ persons_with_id n db = []
  /\ (exists p, persons_with_id n db' = [p]
        /\ format p = JObj [("id", JNum n); ("name", name');
                            ("gender", gender'); ("age", age')])
  /\ (forall m, m <> n -> persons_with_id m db' = persons_with_id m db)
  /\ games db' = games db.
Proof.
  intros Hdb Hbody Tname Tage Sname Sgender Sage n db'. subst n db'.
  rewrite (insert_persons_created rq db o Hbody Tname Tage).
  unfold Person_insert, Person_init; cbn [person_name person_gender person_age].
  rewrite (bind_param_truthy _ _ Tname), (bind_param_truthy _ _ Tage).
  rewrite Sname, Sgender, Sage. cbn [fst snd person_id id_value].
  apply well_keyed_parts in Hdb as [[HB _] _].
  pose proof (keys_below_no_next person_id _ _ HB) as Hfresh.
  unfold persons_with_id; cbn [persons games].
  split; [reflexivity|]. split; [exact Hfresh|]. split; [|split; [|reflexivity]].
  - eexists. split.
    + apply filter_place_in; [|exact Hfresh]. cbn. apply Z.eqb_refl.
    + reflexivity.
  - intros m Hm. apply filter_place_out. cbn. apply Z.eqb_neq. congruence.
Qed.

(** X15. POST /games with a dict whose title and release date test true,
    when the database takes the title into its [String] column and the
    release date into its [Date] column: the game is created under an id no
    row had before and the answer is [{success: true, created: id}]; the
    query by that id then selects exactly the created row, which formats to
    what the columns hold; the rows under other ids and the persons are as
    before. *)
Theorem posted_game_is_found
  (payload : Payload) (rq : Request) (db : DB) (o : list (string * value))
  (title' release_date' : value) :
  well_keyed db = true ->
  get_json rq = JObj o ->
  truthy (dict_get o "title" JNull) = true ->
  truthy (dict_get o "release_date" JNull) = true ->
  store_string (dict_get o "title" JNull) = Some title' ->
  store_date (dict_get o "release_date" JNull) = Some release_date' ->
  let n := games_id_seq db + 1 in
  let db' := snd (insert_games payload rq db) in
  fst (insert_games payload rq db)
    = inr (JObj [("success", JBool true); ("created", JNum n)])
  /\ games_with_id n db = []
  /\ (exists g, games_with_id n db' = [g]
        /\ format g = JObj [("id", JNum n); ("title", title');
                            ("release_date", release_date')])
  /\ (forall m, m <> n -> games_with_id m db' = games_with_id m db)
  /\ persons db' = persons db.
Proof.
  intros Hdb Hbody Ttitle Tdate Stitle Sdate n db'. subst n db'.
  rewrite (insert_games_created payload rq db o Hbody Ttitle Tdate).
  unfold Game_insert, Game_init; cbn [game_title game_release_date].
  rewrite (bind_param_truthy _ _ Ttitle), (bind_param_truthy _ _ Tdate).
  rewrite Stitle, Sdate. cbn [fst snd game_id id_value].
  apply well_keyed_parts in Hdb as [_ [HB _]].
  pose proof (keys_below_no_next game_id _ _ HB) as Hfresh.
  unfold games_with_id; cbn [persons games].
  split; [reflexivity|]. split; [exact Hfresh|]. split; [|split; [|reflexivity]].
  - eexists. split.
    + apply filter_place_in; [|exact Hfresh]. cbn. apply Z.eqb_refl.
    + reflexivity.
  - intros m Hm. apply filter_place_out. cbn. apply Z.eqb_neq. congruence.
Qed.

(** X16. [format] loses nothing: two persons, or two games, with the same
    formatted dict are the same record. *)
Theorem format_determines_record :
  (forall p q : Person, format p = format q -> p = q)
  /\ (forall g h : Game, format g = format h -> g = h).
Proof.
  assert (Hid : forall i j, id_value i = id_value j -> i = j).
  { intros [n|] [m|]; cbn; congruence. }
  split.
  - intros [pi pn pg pa] [qi qn qg qa]. cbn. intros E.
    injection E as Ei En Eg Ea. apply Hid in Ei. congruence.
  - intros [gi gt gd] [hi ht hd]. cbn. intros E.
    injection E as Ei Et Ed. apply Hid in Ei. congruence.
Qed.

End Posted.

(** [test_create_new_person] with the age as a string and a gender of
    [null]: the [Integer] column holds the number, and the key is there, so
    the default does not apply. *)
Lemma posted_person_is_found_witness :
  let o := [("name", JStr "Crisso"); ("age", JStr "25"); ("gender", JNull)] in
  let rq := request_with None None (Some (JObj o)) in
  let db' := snd (insert_persons (H := test_platform) rq test_db) in
  fst (insert_persons (H := test_platform) rq test_db)
    = inr (JObj [("success", JBool true); ("created", JNum 2)])
  /\ persons_with_id 2 test_db = []
  /\ (exists p, persons_with_id 2 db' = [p]
        /\ format p = JObj [("id", JNum 2); ("name", JStr "Crisso");
                            ("gender", JNull); ("age", JNum 25)])
  /\ (forall m, m <> 2 -> persons_with_id m db' = persons_with_id m test_db)
  /\ games db' = games test_db.
Proof.
  intros o rq db'.
  apply (@posted_person_is_found test_platform rq test_db o
           (JStr "Crisso") JNull (JNum 25)); reflexivity.
Defined.

(** [test_create_new_game], with the date as the client sends it. *)
Lemma posted_game_is_found_witness :
  let o := [("title", JStr "Crisso Game"); ("release_date", JStr "2020-05-17")] in
  let rq := request_with None None (Some (JObj o)) in
  let db' := snd (insert_games (H := test_platform) executive_producer rq test_db) in
  fst (insert_games (H := test_platform) executive_producer rq test_db)
    = inr (JObj [("success", JBool true); ("created", JNum 2)])
  /\ games_with_id 2 test_db = []
  /\ (exists g, games_with_id 2 db' = [g]
        /\ format g = JObj [("id", JNum 2); ("title", JStr "Crisso Game");
                            ("release_date", JDate 2020 5 17)])
  /\ (forall m, m <> 2 -> games_with_id m db' = games_with_id m test_db)
  /\ persons db' = persons test_db.
Proof.
  intros o rq db'.
  apply (@posted_game_is_found test_platform executive_producer rq test_db o
           (JStr "Crisso Game") (JDate 2020 5 17)); reflexivity.
Defined.

(** ** Requests one after the other *)

Lemma keep_all_but_next {A : Type} (key : A -> option Z) (b : Z) (l : list A) :
  forallb (key_below b) (map key l) = true ->
  filter (fun r => negb (same_id (Some (b + 1)) (key r))) l = l.
Proof.
  induction l as [|a l IH]; [reflexivity|]. cbn [map forallb filter].
  intros Hall. apply andb_true_iff in Hall as [Ha Hl].
  destruct (key_below_not_next b (key a) Ha) as [_ ->]. cbn [negb].
  now rewrite IH.
Qed.

Section Sequences.

Context `{Platform}.

(** A column after the same PATCH a second time holds what it held after
    the first. *)
Lemma column_after_again (store : value -> option value)
  (o : list (string * value)) (key : string) (loaded s : value) :
  column_after store (dict_get o key loaded) loaded = Some s ->
  column_after store (dict_get o key s) s = Some s.
Proof.
  unfold dict_get. destruct (dict_lookup o key) as [v|];
    [|intros _; apply column_after_same].
  intros C. destruct (column_after_cases _ _ _ _ C) as [[E ->] | [E B]];
    unfold column_after.
  - now rewrite E.
  - now destruct (py_eq v s).
Qed.

Lemma Person_update_again (n : Z) (p row : Person) (o : list (string * value))
  (db db1 : DB) :
  persons_with_id n db = [p] ->
  Person_update p (patch_person p o) db = Some (row, db1) ->
  Person_update row (patch_person row o) db1 = Some (row, db1).
Proof.
  intros Hsel Hup. pose proof (selected_person_id _ _ _ _ Hsel) as Hp.
  destruct (Person_update_some _ _ _ _ _ Hup)
    as (Hid & Cname & Cgender & Cage & [[-> ->] | ->]); [exact Hup|].
  cbn [patch_person person_name person_gender person_age] in Cname, Cgender, Cage.
  rewrite <- Hid in Hp.
  unfold Person_update. cbn [patch_person person_name person_gender person_age].
  rewrite (column_after_again _ _ _ _ _ Cname),
          (column_after_again _ _ _ _ _ Cgender),
          (column_after_again _ _ _ _ _ Cage).
  assert (Erow : {| person_id := person_id row; person_name := person_name row;
                    person_gender := person_gender row;
                    person_age := person_age row |} = row) by now destruct row.
  rewrite Erow.
  destruct (Person_dirty row _); [|reflexivity].
  cbn [persons persons_id_seq games games_id_seq].
  now rewrite (rewrite_row_twice person_id n).
Qed.

Lemma Game_update_again (n : Z) (g row : Game) (o : list (string * value))
  (db db1 : DB) :
  games_with_id n db = [g] ->
  Game_update g (patch_game g o) db = Some (row, db1) ->
  Game_update row (patch_game row o) db1 = Some (row, db1).
Proof.
  intros Hsel Hup. pose proof (selected_game_id _ _ _ _ Hsel) as Hg.
  destruct (Game_update_some _ _ _ _ _ Hup)
    as (Hid & Ctitle & Cdate & [[-> ->] | ->]); [exact Hup|].
  cbn [patch_game game_title game_release_date] in Ctitle, Cdate.
  rewrite <- Hid in Hg.
  unfold Game_update. cbn [patch_game game_title game_release_date].
  rewrite (column_after_again _ _ _ _ _ Ctitle),
          (column_after_again _ _ _ _ _ Cdate).
  assert (Erow : {| game_id := game_id row; game_title := game_title row;
                    game_release_date := game_release_date row |} = row)
    by now destruct row.
  rewrite Erow.
  destruct (Game_dirty row _); [|reflexivity].
  cbn [persons persons_id_seq games games_id_seq].
  now rewrite (rewrite_row_twice game_id n).
Qed.

(** X17. An accepted PATCH is idempotent: the same request sent again gets
    the same answer and leaves the database as the first one left it. *)
Theorem patch_is_idempotent
  (payload : Payload) (i : string) (n : Z) (rq : Request) (db : DB)
  (o : list (string * value)) :
  i <> ""%string ->
  get_json rq = JObj o ->
  o <> [] ->
  sql_int i = Some n ->
  (forall p, persons_with_id n db = [p] ->
     edit_persons payload i rq (snd (edit_persons payload i rq db))
     = edit_persons payload i rq db)
  /\ (forall g, games_with_id n db = [g] ->
     edit_games payload i rq (snd (edit_games payload i rq db))
     = edit_games payload i rq db).
Proof.
  intros Hi Hbody Ho Hn. split.
  - intros p Hsel.
    rewrite (edit_persons_found payload i n rq db p o Hi Hbody Ho Hn Hsel).
    destruct (Person_update p (patch_person p o) db) as [[row db1]|] eqn:Hup;
      cbn [snd].
    + destruct (Person_update_selected _ _ _ _ _ _ Hsel Hup) as (Hsel1 & _).
      rewrite (edit_persons_found payload i n rq db1 row o Hi Hbody Ho Hn Hsel1).
      now rewrite (Person_update_again n p row o db db1 Hsel Hup).
    + rewrite (edit_persons_found payload i n rq db p o Hi Hbody Ho Hn Hsel).
      now rewrite Hup.
  - intros g Hsel.
    rewrite (edit_games_found payload i n rq db g o Hi Hbody Ho Hn Hsel).
    destruct (Game_update g (patch_game g o) db) as [[row db1]|] eqn:Hup;
      cbn [snd].
    + destruct (Game_update_selected _ _ _ _ _ _ Hsel Hup) as (Hsel1 & _).
      rewrite (edit_games_found payload i n rq db1 row o Hi Hbody Ho Hn Hsel1).
      now rewrite (Game_update_again n g row o db db1 Hsel Hup).
    + rewrite (edit_games_found payload i n rq db g o Hi Hbody Ho Hn Hsel).
      now rewrite Hup.
Qed.

(** X18. POST /persons with a dict whose name and age test true, then
    DELETE under the next id of the sequence.  When the POST was answered,
    the DELETE is answered too, and afterwards the query by every id selects
    what it selected before the POST, the table has as many rows as it had
    and the games are untouched; the id stays used up: the sequence is not
    set back.  When the POST was refused by the database, nothing was
    created and the DELETE is answered 404. *)
Theorem post_then_delete_restores_rows
  (payload : Payload) (i : string) (rq rq' : Request) (db : DB)
  (o : list (string * value)) :
  well_keyed db = true ->
  get_json rq = JObj o ->
  truthy (dict_get o "name" JNull) = true ->
  truthy (dict_get o "age" JNull) = true ->
  i <> ""%string ->
  sql_int i = Some (persons_id_seq db + 1) ->
  let db1 := snd (insert_persons rq db) in
  let db2 := snd (delete_persons payload i rq' db1) in
  (status (respond (fst (insert_persons rq db))) = 200 ->
     fst (delete_persons payload i rq' db1)
       = inr (JObj [("success", JBool true); ("deleted", JStr i)])
     /\ (forall m, persons_with_id m db2 = persons_with_id m db)
     /\ length (persons db2) = length (persons db)
     /\ persons_id_seq db2 = persons_id_seq db + 1
     /\ games db2 = games db)
  /\ (status (respond (fst (insert_persons rq db))) <> 200 ->
     db1 = db
     /\ status (respond (fst (delete_persons payload i rq' db1))) = 404
     /\ db2 = db).
Proof.
  intros Hdb Hbody Tname Tage Hi Hn db1 db2. subst db2 db1.
  rewrite (insert_persons_created rq db o Hbody Tname Tage).
  apply well_keyed_parts in Hdb as [[HB _] _].
  pose proof (keys_below_no_next person_id _ _ HB) as Hfresh.
  destruct (Person_insert _ db) as [[row db1]|] eqn:Hin; cbn [fst snd].
  - split; [intros _ | intros Hno; now contradiction Hno].
    destruct (Person_insert_some _ _ _ _ Hin) as (Hid & _ & _ & _ & ->).
    set (db1 := {| persons := place _ row (persons db);
                   persons_id_seq := persons_id_seq db + 1;
                   games := games db; games_id_seq := games_id_seq db |}).
    assert (Hsel : persons_with_id (persons_id_seq db + 1) db1 = [row]).
    { unfold persons_with_id, db1; cbn [persons].
      apply filter_place_in; [|exact Hfresh]. rewrite Hid. cbn. apply Z.eqb_refl. }
    rewrite (delete_persons_found payload i _ rq' db1 _ Hi Hn Hsel). cbn [fst snd].
    assert (Hrows : persons (Person_delete row db1) = persons db).
    { unfold Person_delete, db1; cbn [persons].
      rewrite filter_place_out by (rewrite Hid; cbn; now rewrite Z.eqb_refl).
      rewrite Hid. now apply keep_all_but_next. }
    split; [reflexivity|]. split; [|split; [|split; reflexivity]].
    + intros m. unfold persons_with_id. now rewrite Hrows.
    + now rewrite Hrows.
  - split; [intros Hyes; discriminate Hyes | intros _].
    split; [reflexivity|].
    rewrite (delete_persons_missing payload i _ rq' db Hi Hn Hfresh).
    split; reflexivity.
Qed.

End Sequences.

(** [test_edit_person] sent twice. *)
Lemma patch_is_idempotent_witness :
  let rq := request_with None None (Some (JObj [("age", JNum 30)])) in
  edit_persons (H := test_platform) casting_director "1" rq
    (snd (edit_persons (H := test_platform) casting_director "1" rq test_db))
  = edit_persons (H := test_platform) casting_director "1" rq test_db.
Proof.
  intros rq.
  apply (proj1 (@patch_is_idempotent test_platform casting_director "1" 1 rq test_db
                  [("age", JNum 30)]
                  ltac:(discriminate) eq_refl ltac:(discriminate) eq_refl)
           {| person_id := Some 1; person_name := JStr "Matthew";
              person_gender := JStr "Male"; person_age := JNum 25 |}).
  reflexivity.
Defined.

(** [test_create_new_person], then DELETE /persons/2. *)
Lemma post_then_delete_restores_rows_witness :
  let rq := request_with None None
              (Some (JObj [("name", JStr "Crisso"); ("age", JNum 25)])) in
  let rq' := request_with None None None in
  let db1 := snd (insert_persons (H := test_platform) rq test_db) in
  let db2 := snd (delete_persons (H := test_platform) casting_director "2" rq' db1) in
  fst (delete_persons (H := test_platform) casting_director "2" rq' db1)
    = inr (JObj [("success", JBool true); ("deleted", JStr "2")])
  /\ (forall m, persons_with_id m db2 = persons_with_id m test_db)
  /\ length (persons db2) = length (persons test_db)
  /\ persons_id_seq db2 = persons_id_seq test_db + 1
  /\ games db2 = games test_db.
Proof.
  intros rq rq' db1 db2.
  apply (proj1 (@post_then_delete_restores_rows test_platform casting_director "2"
           rq rq' test_db [("name", JStr "Crisso"); ("age", JNum 25)]
           eq_refl eq_refl eq_refl eq_refl ltac:(discriminate) eq_refl)).
  reflexivity.
Defined.
